(** * Remote commands handler: command dispatch and batch processing

    A shallow embedding of [app/modbus_client.py] (class [ModbusClient]),
    [app/mqtt_reader.py] (the [_on_message] handler of [MqttReader]) and the
    callback wired in [main.py], together with the collaborators they use.

    Python code that touches the outside world is written in a small
    state-and-exception monad over a [World] that records, in order, every
    operation attempted on the Modbus transport, every call of the error
    handler's [publish] and every invocation of a message callback. *)

From Stdlib Require Import ZArith List String Ascii Bool Lia.
From Stdlib Require Import Strings.Byte.
From Stdlib Require Import Floats.SpecFloat.
From Stdlib Require Import DecimalString.
Import ListNotations.

Local Open Scope string_scope.
Local Open Scope list_scope.
Local Open Scope Z_scope.

(** ** Python values carried by a command *)

(** The [value] of a command comes from a JSON document: null, a boolean, an
    integer, a float (an IEEE-754 double, kept as its exact [spec_float]) or a
    string. *)
Inductive PyValue : Type :=
| VNone
| VBool (b : bool)
| VInt (z : Z)
| VFloat (f : spec_float)
| VStr (s : string).

(** Python's [bool(value)]. *)
Definition py_bool (v : PyValue) : bool :=
  match v with
  | VNone => false
  | VBool b => b
  | VInt z => negb (z =? 0)
  | VFloat (S754_zero _) => false
  | VFloat _ => true
  | VStr s => negb (String.eqb s EmptyString)
  end.

(** ** Exceptions *)

(** The exception classes that occur in the modelled code.  All of them derive
    from Python's [Exception]; [ModbusException] stands for pymodbus's base
    class and its subclasses, [OtherError] for any other [Exception]. *)
Inductive ExnClass : Type :=
| UnknownCommandError
| InvalidMessageError
| ModbusClientError
| ModbusException
| IndexError
| KeyError
| UnicodeDecodeError
| EncodingError
| UnboundLocalError
| TypeError
| OtherError.

Record Exn : Type := mkExn { exn_class : ExnClass; exn_arg : string }.

(** Python's [str(ex)]. *)
Definition py_str (ex : Exn) : string := exn_arg ex.

Definition ExnClass_eqb (a b : ExnClass) : bool :=
  match a, b with
  | UnknownCommandError, UnknownCommandError
  | InvalidMessageError, InvalidMessageError
  | ModbusClientError, ModbusClientError
  | ModbusException, ModbusException
  | IndexError, IndexError
  | KeyError, KeyError
  | UnicodeDecodeError, UnicodeDecodeError
  | EncodingError, EncodingError
  | UnboundLocalError, UnboundLocalError
  | TypeError, TypeError
  | OtherError, OtherError => true
  | _, _ => false
  end.

(** [isinstance(ex, cls)] for an [except cls] clause. *)
Definition isinstance (ex : Exn) (cls : ExnClass) : bool :=
  ExnClass_eqb (exn_class ex) cls.

(** ** Configuration *)

Inductive DataType : Type :=
| int16 | uint16 | int32 | uint32 | float32
| unrecognized (name : string).

Inductive ByteOrder : Type := BigEndian | LittleEndian.
Inductive WordOrder : Type := NaturalWords | SwappedWords.

Record MemoryOrder : Type :=
  { byte_order : ByteOrder; word_order : WordOrder }.

(** The code reads a target's base address as [address[0]]: [address] is a
    list. *)
Record Coil : Type :=
  { coil_name : string; coil_address : list Z }.

Record HoldingRegister : Type :=
  { register_name : string;
    register_address : list Z;
    data_type : DataType;
    memory_order : MemoryOrder }.

(** Modelled from the spec: the class [Configuration] of [app/configuration.py]
    is not among the sources.  It is built from the list of coils and the list
    of holding registers ([main.py] passes [get_coils()] and
    [get_holding_registers()] to its constructor), and [get_coil] and
    [get_holding_register] are exact-match lookups by name that return the
    target or [None]. *)
Record Configuration : Type :=
  { get_coils : list Coil; get_holding_registers : list HoldingRegister }.

(** Modelled from the spec: [Configuration.get_coil] is not among the
    sources; an exact-match lookup of a coil by name. *)
Definition get_coil (c : Configuration) (name : string) : option Coil :=
  find (fun k => String.eqb (coil_name k) name) (get_coils c).

(** Modelled from the spec: [Configuration.get_holding_register] is not among
    the sources; an exact-match lookup of a register by name. *)
Definition get_holding_register (c : Configuration) (name : string)
  : option HoldingRegister :=
  find (fun r => String.eqb (register_name r) name) (get_holding_registers c).

(** ** Command messages *)

Inductive Target : Type :=
| TargetCoil (c : Coil)
| TargetRegister (r : HoldingRegister).

(** One parsed command: the action name, the raw value, and what [validate]
    and [transform] fill in. *)
Record CommandMessage : Type :=
  { action : string;
    value : PyValue;
    resolved_target : option Target;
    typed_value : option PyValue }.

(** ** The world *)

(** Operations attempted on the pymodbus client [self._client]. *)
Inductive TransportOp : Type :=
| OpConnect
| OpWriteCoil (address : Z) (val : bool) (slave : Z)
| OpWriteCoils (address : Z) (vals : list bool)
| OpWriteRegisters (address : Z) (vals : list Z) (slave : Z)
| OpClose.

Inductive Category : Type :=
| INVALID_MESSAGE | UNKNOWN_COMMAND | UNHANDLED.

(** The arguments of one call of [error_handler.publish]: [ModbusClient]
    passes the exception, [MqttReader] a category and a message. *)
Inductive Published : Type :=
| PublishExn (ex : Exn)
| PublishCategory (c : Category) (message : string).

Record World : Type :=
  { modbus_log : list TransportOp;
    published : list Published;
    dispatched : list (nat * CommandMessage) }.

Definition empty_world : World :=
  {| modbus_log := []; published := []; dispatched := [] |}.

(** ** Computations that may raise *)

Inductive Outcome (A : Type) : Type :=
| Returned (a : A)
| Raised (ex : Exn).
Arguments Returned {A} a.
Arguments Raised {A} ex.

Definition M (A : Type) : Type := World -> Outcome A * World.

Definition ret {A} (a : A) : M A := fun w => (Returned a, w).

Definition raise {A} (ex : Exn) : M A := fun w => (Raised ex, w).

Definition bind {A B} (m : M A) (k : A -> M B) : M B :=
  fun w =>
    match m w with
    | (Returned a, w') => k a w'
    | (Raised ex, w') => (Raised ex, w')
    end.

Notation "x <- m ;; k" := (bind m (fun x => k))
  (at level 61, m at next level, right associativity).
Notation "m ;;; k" := (bind m (fun _ => k))
  (at level 61, right associativity).

(** A pure computation that may raise, run inside [M]. *)
Definition lift {A} (r : Outcome A) : M A := fun w => (r, w).

(** [try: body except cls as ex: handler ex]. *)
Definition try_except {A} (body : M A) (cls : ExnClass) (handler : Exn -> M A)
  : M A :=
  fun w =>
    match body w with
    | (Raised ex, w') =>
        if isinstance ex cls then handler ex w' else (Raised ex, w')
    | r => r
    end.

(** [try: body except Exception as ex: handler ex]. *)
Definition try_except_Exception {A} (body : M A) (handler : Exn -> M A) : M A :=
  fun w =>
    match body w with
    | (Raised ex, w') => handler ex w'
    | r => r
    end.

(** Python's [l[0]]. *)
Definition index0 (l : list Z) : Outcome Z :=
  match l with
  | a :: _ => Returned a
  | [] => Raised (mkExn IndexError "list index out of range")
  end.

(** Modelled from the spec: the class [ErrorHandler] of [app/error_handler.py]
    is not among the sources.  [publish] forwards one event to the external
    sink and never raises; the world keeps the events in publication order. *)
Definition publish (p : Published) : M unit :=
  fun w =>
    (Returned tt,
     {| modbus_log := modbus_log w;
        published := published w ++ [p];
        dispatched := dispatched w |}).

(** ** The Modbus transport *)

(** How a call on the pymodbus client can fail: with a [ModbusException]
    (connection and protocol failures are its subclasses) or with some other
    exception. *)
Inductive Fault : Type :=
| ModbusFault (msg : string)
| OtherFault (msg : string).

Definition exn_of_fault (f : Fault) : Exn :=
  match f with
  | ModbusFault msg => mkExn ModbusException msg
  | OtherFault msg => mkExn OtherError msg
  end.

(** The pymodbus client is external: given the operations attempted so far and
    the operation attempted now, it either carries it out or fails. *)
Definition Transport : Type := list TransportOp -> TransportOp -> option Fault.

Definition transport_call (t : Transport) (op : TransportOp) : M unit :=
  fun w =>
    let w' := {| modbus_log := modbus_log w ++ [op];
                 published := published w;
                 dispatched := dispatched w |} in
    match t (modbus_log w) op with
    | None => (Returned tt, w')
    | Some f => (Raised (exn_of_fault f), w')
    end.

(** Binding on pure outcomes. *)
Definition obind {A B} (r : Outcome A) (k : A -> Outcome B) : Outcome B :=
  match r with
  | Returned a => k a
  | Raised ex => Raised ex
  end.

(** ** The payload codec *)

Module PayloadBuilder.

(** Modelled from the spec: the class [PayloadBuilder] of
    [app/payload_builder.py] is not among the sources.  The builder holds a
    data type, a value and a memory order, and [build] runs the codec of the
    specification: (1) encode the value into its fixed-width byte
    representation, two's complement for the integer types and IEEE-754
    single precision for [float32]; (2) split the bytes into 16-bit words,
    most significant word first; (3) for little-endian byte order swap the
    two bytes of each word; (4) for swapped word order reverse the words.
    It fails with an encoding error when the data type is unrecognized or
    the value does not fit the declared width. *)
Record t : Type :=
  { pb_data_type : option DataType;
    pb_value : option PyValue;
    pb_memory_order : option MemoryOrder }.

Definition new : t :=
  {| pb_data_type := None; pb_value := None; pb_memory_order := None |}.

Definition set_data_type (b : t) (d : DataType) : t :=
  {| pb_data_type := Some d;
     pb_value := pb_value b;
     pb_memory_order := pb_memory_order b |}.

Definition set_value (b : t) (v : PyValue) : t :=
  {| pb_data_type := pb_data_type b;
     pb_value := Some v;
     pb_memory_order := pb_memory_order b |}.

Definition set_memory_order (b : t) (m : MemoryOrder) : t :=
  {| pb_data_type := pb_data_type b;
     pb_value := pb_value b;
     pb_memory_order := Some m |}.

Definition encoding_error (msg : string) : Exn := mkExn EncodingError msg.

(** The [n] low-order bytes of [u], most significant first. *)
Fixpoint big_endian_bytes (n : nat) (u : Z) : list Z :=
  match n with
  | O => []
  | S k => Z.land (Z.shiftr u (8 * Z.of_nat k)) 255 :: big_endian_bytes k u
  end.

(** Two's complement of [z] on [n] bytes, for [lo <= z <= hi]. *)
Definition integer_bytes (n : nat) (lo hi : Z) (v : PyValue)
  : Outcome (list Z) :=
  match v with
  | VInt z =>
      if (lo <=? z) && (z <=? hi)
      then Returned (big_endian_bytes n (z mod 2 ^ (8 * Z.of_nat n)))
      else Raised (encoding_error "value does not fit the declared width")
  | _ => Raised (encoding_error "value is not an integer")
  end.

(** Rounding of a double to single precision, to nearest even. *)
Definition to_binary32 (f : spec_float) : spec_float :=
  match f with
  | S754_finite s m e => binary_round 24 128 s m e
  | _ => f
  end.

Definition sign_bit (s : bool) : Z := if s then Z.shiftl 1 31 else 0.

(** The IEEE-754 single-precision bit pattern of a binary32 number. *)
Definition binary32_bits (f : spec_float) : Z :=
  match f with
  | S754_zero s => sign_bit s
  | S754_infinity s => Z.lor (sign_bit s) 0x7F800000
  | S754_nan => 0x7FC00000
  | S754_finite s m e =>
      if 0x800000 <=? Zpos m
      then Z.lor (sign_bit s)
             (Z.lor (Z.shiftl (e + 150) 23) (Zpos m - 0x800000))
      else Z.lor (sign_bit s) (Zpos m)
  end.

Definition float32_of_value (v : PyValue) : Outcome spec_float :=
  match v with
  | VFloat f =>
      match f, to_binary32 f with
      | S754_finite _ _ _, S754_infinity _ =>
          Raised (encoding_error "float too large for single precision")
      | _, r => Returned r
      end
  | VInt z =>
      match binary_normalize 24 128 z 0 false with
      | S754_infinity _ =>
          Raised (encoding_error "int too large for single precision")
      | r => Returned r
      end
  | _ => Raised (encoding_error "value is not a number")
  end.

(** Modelled from the spec: step 1 of the codec, the fixed-width byte
    representation of the value, most significant byte first. *)
Definition natural_bytes (d : DataType) (v : PyValue) : Outcome (list Z) :=
  match d with
  | int16 => integer_bytes 2 (-32768) 32767 v
  | uint16 => integer_bytes 2 0 65535 v
  | int32 => integer_bytes 4 (-2147483648) 2147483647 v
  | uint32 => integer_bytes 4 0 4294967295 v
  | float32 =>
      obind (float32_of_value v)
        (fun f => Returned (big_endian_bytes 4 (binary32_bits f)))
  | unrecognized name => Raised (encoding_error name)
  end.

(** The number of 16-bit words a data type occupies. *)
Definition width (d : DataType) : nat :=
  match d with
  | int16 | uint16 => 1
  | int32 | uint32 | float32 => 2
  | unrecognized _ => 0
  end.

(** Modelled from the spec: step 2 of the codec, the bytes taken two by two
    as 16-bit words. *)
Fixpoint words_of_bytes (bs : list Z) : list Z :=
  match bs with
  | hi :: lo :: rest => Z.lor (Z.shiftl hi 8) lo :: words_of_bytes rest
  | _ => []
  end.

(** Modelled from the spec: step 3 of the codec, the two bytes of a word
    exchanged. *)
Definition swap_bytes (w : Z) : Z :=
  Z.lor (Z.shiftl (Z.land w 255) 8) (Z.shiftr w 8).

Definition apply_byte_order (o : ByteOrder) (ws : list Z) : list Z :=
  match o with
  | BigEndian => ws
  | LittleEndian => map swap_bytes ws
  end.

(** Modelled from the spec: step 4 of the codec. *)
Definition apply_word_order (o : WordOrder) (ws : list Z) : list Z :=
  match o with
  | NaturalWords => ws
  | SwappedWords => rev ws
  end.

(** Modelled from the spec: the codec, steps 1 to 4 in order. *)
Definition encode (d : DataType) (m : MemoryOrder) (v : PyValue)
  : Outcome (list Z) :=
  obind (natural_bytes d v)
    (fun bs =>
       Returned
         (apply_word_order (word_order m)
            (apply_byte_order (byte_order m) (words_of_bytes bs)))).

(** Modelled from the spec: [PayloadBuilder.build] runs the codec on what the
    setters stored. *)
Definition build (b : t) : Outcome (list Z) :=
  match pb_data_type b, pb_memory_order b, pb_value b with
  | Some d, Some m, Some v => encode d m v
  | _, _, _ => Raised (encoding_error "payload builder is incomplete")
  end.

End PayloadBuilder.

(** ** [ModbusClient] *)

Record ModbusClient : Type :=
  { configuration : Configuration;
    _client : Transport }.

(** [_build_register_payload(holding_register, value)]. *)
Definition _build_register_payload (holding_register : HoldingRegister)
  (v : PyValue) : Outcome (list Z) :=
  let payload_builder := PayloadBuilder.new in
  let payload_builder :=
    PayloadBuilder.set_data_type payload_builder (data_type holding_register) in
  let payload_builder := PayloadBuilder.set_value payload_builder v in
  let payload_builder :=
    PayloadBuilder.set_memory_order payload_builder
      (memory_order holding_register) in
  PayloadBuilder.build payload_builder.

(** The handler shared by the three writes:
    [except ModbusException as ex: publish(ex); raise ModbusClientError(ex)]. *)
Definition modbus_failed {A} (ex : Exn) : M A :=
  publish (PublishExn ex) ;;;
  raise (mkExn ModbusClientError (py_str ex)).

Definition write_coils (self : ModbusClient) (name : string) (v : list bool)
  : M Z :=
  match get_coil (configuration self) name with
  | Some coil_configuration =>
      try_except
        (transport_call (_client self) OpConnect ;;;
         a <- lift (index0 (coil_address coil_configuration)) ;;
         transport_call (_client self) (OpWriteCoils a v) ;;;
         transport_call (_client self) OpClose ;;;
         ret (Z.of_nat (List.length v)))
        ModbusException modbus_failed
  | None => ret 0
  end.

Definition write_coil (self : ModbusClient) (name : string) (v : bool) : M Z :=
  match get_coil (configuration self) name with
  | Some coil_configuration =>
      try_except
        (transport_call (_client self) OpConnect ;;;
         a <- lift (index0 (coil_address coil_configuration)) ;;
         transport_call (_client self) (OpWriteCoil a v 1) ;;;
         transport_call (_client self) OpClose ;;;
         ret 1)
        ModbusException modbus_failed
  | None => ret 0
  end.

Definition write_register (self : ModbusClient) (name : string) (v : PyValue)
  : M Z :=
  match get_holding_register (configuration self) name with
  | Some holding_register_configuration =>
      payload <-
        try_except_Exception
          (lift (_build_register_payload holding_register_configuration v))
          (fun ex =>
             publish (PublishExn ex) ;;;
             raise (mkExn InvalidMessageError (py_str ex))) ;;
      try_except
        (transport_call (_client self) OpConnect ;;;
         a <- lift (index0 (register_address holding_register_configuration)) ;;
         transport_call (_client self) (OpWriteRegisters a payload 1) ;;;
         transport_call (_client self) OpClose ;;;
         ret 1)
        ModbusException modbus_failed
  | None => ret 0
  end.

(** The part of [write_command] that accumulates [sent] (lines 101 to 109). *)
Definition write_command_sent (self : ModbusClient) (name : string)
  (v : PyValue) : M Z :=
  let sent := 0 in
  sent <-
    match get_coil (configuration self) name with
    | Some _ => n <- write_coil self name (py_bool v) ;; ret (sent + n)
    | None => ret sent
    end ;;
  sent <-
    match get_holding_register (configuration self) name with
    | Some _ => n <- write_register self name v ;; ret (sent + n)
    | None => ret sent
    end ;;
  ret sent.

(** [write_command] has no [return] statement: when it does not raise, the
    caller receives [None]. *)
Definition write_command (self : ModbusClient) (name : string) (v : PyValue)
  : M PyValue :=
  sent <- write_command_sent self name v ;;
  if sent =? 0
  then
    let ex := mkExn UnknownCommandError name in
    publish (PublishExn ex) ;;;
    raise ex
  else ret VNone.

(** [write_command] as the specification words it: attempt the coil write
    with the value coerced to a boolean and the register write, sum the two
    counts, and fail with [UnknownCommandError], after publishing it, exactly
    when the sum is 0. *)
Definition write_command_spec (self : ModbusClient) (name : string)
  (v : PyValue) : M PyValue :=
  coil_count <- write_coil self name (py_bool v) ;;
  register_count <- write_register self name v ;;
  if coil_count + register_count =? 0
  then
    let ex := mkExn UnknownCommandError name in
    publish (PublishExn ex) ;;;
    raise ex
  else ret VNone.

(** ** [main.py]: the callback that writes a command to Modbus *)

(** How the object handed to the callback answers [message["action"]] and
    [message["value"]]: each subscript returns or raises. *)
Record Subscript (Msg : Type) : Type :=
  { item_action : Msg -> Outcome string;
    item_value : Msg -> Outcome PyValue }.
Arguments item_action {Msg} s message.
Arguments item_value {Msg} s message.

(** A [str] cannot be subscripted with a string: [message["action"]] raises
    [TypeError]. *)
Definition str_subscript : Subscript string :=
  {| item_action :=
       fun _ => Raised (mkExn TypeError "string indices must be integers");
     item_value :=
       fun _ => Raised (mkExn TypeError "string indices must be integers") |}.

(** [write_to_modbus(message)], for a message of any type: the two
    subscripts and the call of [write_command] are inside the [try], and
    whatever they raise is logged and swallowed. *)
Definition write_to_modbus {Msg : Type} (subscript : Subscript Msg)
  (modbus_client : ModbusClient) (message : Msg) : M unit :=
  try_except_Exception
    (name <- lift (item_action subscript message) ;;
     v <- lift (item_value subscript message) ;;
     write_command modbus_client name v ;;;
     ret tt)
    (fun _ => ret tt).

(** ** [MqttReader] *)

(** An inbound MQTT message as the paho client holds it: the bytes of its
    topic and of its payload. *)
Record MQTTMessage : Type :=
  { _topic : list byte; payload : list byte }.

Definition is_continuation (b : N) : bool :=
  ((0x80 <=? b) && (b <=? 0xBF))%N.

(** Well-formed UTF-8, the encoding [bytes.decode()] expects. *)
Fixpoint utf8_valid (bs : list N) : bool :=
  match bs with
  | [] => true
  | b0 :: r0 =>
      if (b0 <=? 0x7F)%N then utf8_valid r0
      else
        match r0 with
        | [] => false
        | b1 :: r1 =>
            if ((0xC2 <=? b0) && (b0 <=? 0xDF))%N
            then is_continuation b1 && utf8_valid r1
            else
              match r1 with
              | [] => false
              | b2 :: r2 =>
                  if ((0xE0 <=? b0) && (b0 <=? 0xEF))%N
                  then
                    (if (b0 =? 0xE0)%N then ((0xA0 <=? b1) && (b1 <=? 0xBF))%N
                     else if (b0 =? 0xED)%N
                          then ((0x80 <=? b1) && (b1 <=? 0x9F))%N
                          else is_continuation b1)
                    && is_continuation b2 && utf8_valid r2
                  else
                    match r2 with
                    | [] => false
                    | b3 :: r3 =>
                        if ((0xF0 <=? b0) && (b0 <=? 0xF4))%N
                        then
                          (if (b0 =? 0xF0)%N
                           then ((0x90 <=? b1) && (b1 <=? 0xBF))%N
                           else if (b0 =? 0xF4)%N
                                then ((0x80 <=? b1) && (b1 <=? 0x8F))%N
                                else is_continuation b1)
                          && is_continuation b2 && is_continuation b3
                          && utf8_valid r3
                        else false
                    end
              end
        end
  end.

(** [message.topic]: a property of the paho message, which decodes the bytes
    of the topic when it is read and raises on bytes that are not UTF-8. *)
Definition topic (message : MQTTMessage) : Outcome string :=
  if utf8_valid (map Byte.to_N (_topic message))
  then Returned (string_of_list_byte (_topic message))
  else Raised (mkExn UnicodeDecodeError "invalid utf-8")%string.

(** [_decode_message(message)]: [message.payload.decode()].  A Python [str] is
    kept as its UTF-8 bytes. *)
Definition _decode_message (message : MQTTMessage) : Outcome string :=
  if utf8_valid (map Byte.to_N (payload message))
  then Returned (string_of_list_byte (payload message))
  else Raised (mkExn UnicodeDecodeError "invalid utf-8")%string.

(** One item of a parsed batch, as far as the handler looks at it: the values
    under the keys ["action"] and ["value"], when present. *)
Record MsgDict : Type :=
  { dict_action : option string; dict_value : option PyValue }.

(** Python's [d[key]]. *)
Definition getitem {A} (key : string) (field : option A) : Outcome A :=
  match field with
  | Some a => Returned a
  | None => Raised (mkExn KeyError key)
  end.

(** The classes of [app/message.py] are not among the sources.  The handler
    is modelled over any implementation of what it calls:
    [CommandMessageList.read], and the [validate] and [transform] methods of
    [CommandMessage], which return the updated message or raise. *)
Record MessageApi : Type :=
  { CommandMessageList_read : string -> Outcome (list MsgDict);
    validate : Configuration -> CommandMessage -> Outcome CommandMessage;
    transform : Configuration -> CommandMessage -> Outcome CommandMessage }.

Definition Callback : Type := CommandMessage -> M unit.

Record MqttReader : Type :=
  { reader_configuration : Configuration;
    message_api : MessageApi;
    _on_message_callbacks : list Callback }.

(** [CommandMessage(msg_dict["action"], msg_dict["value"], configuration)]. *)
Definition new_CommandMessage (msg_dict : MsgDict) : Outcome CommandMessage :=
  obind (getitem "action" (dict_action msg_dict)) (fun a =>
  obind (getitem "value" (dict_value msg_dict)) (fun v =>
  Returned {| action := a; value := v;
              resolved_target := None; typed_value := None |})).

(** The body of [for msg_dict in msg_list] for one item. *)
Definition prepare (self : MqttReader) (msg_dict : MsgDict)
  : Outcome CommandMessage :=
  obind (new_CommandMessage msg_dict) (fun msg_obj =>
  obind (validate (message_api self) (reader_configuration self) msg_obj)
    (fun msg_obj =>
  transform (message_api self) (reader_configuration self) msg_obj)).

(** The loop [for msg_dict in msg_list], appending to [msg_obj_list]. *)
Fixpoint prepare_all (self : MqttReader) (msg_list : list MsgDict)
  (msg_obj_list : list CommandMessage) : Outcome (list CommandMessage) :=
  match msg_list with
  | [] => Returned msg_obj_list
  | msg_dict :: rest =>
      obind (prepare self msg_dict) (fun msg_obj =>
      prepare_all self rest (msg_obj_list ++ [msg_obj]))
  end.

(** The world records each invocation of a callback: its position in
    [_on_message_callbacks] and the message handed to it. *)
Definition record_dispatch (i : nat) (msg_obj : CommandMessage) : M unit :=
  fun w =>
    (Returned tt,
     {| modbus_log := modbus_log w;
        published := published w;
        dispatched := dispatched w ++ [(i, msg_obj)] |}).

(** The loop [for callback in self._on_message_callbacks]. *)
Fixpoint call_callbacks (i : nat) (callbacks : list Callback)
  (msg_obj : CommandMessage) : M unit :=
  match callbacks with
  | [] => ret tt
  | callback :: rest =>
      record_dispatch i msg_obj ;;;
      callback msg_obj ;;;
      call_callbacks (S i) rest msg_obj
  end.

(** The loop [for msg_obj in msg_obj_list]. *)
Fixpoint dispatch_all (callbacks : list Callback)
  (msg_obj_list : list CommandMessage) : M unit :=
  match msg_obj_list with
  | [] => ret tt
  | msg_obj :: rest =>
      call_callbacks 0 callbacks msg_obj ;;;
      dispatch_all callbacks rest
  end.

(** [try: body except c1 as ex: h1 ex except c2 as ex: h2 ex]. *)
Definition try_except2 {A} (body : M A)
  (c1 : ExnClass) (h1 : Exn -> M A) (c2 : ExnClass) (h2 : Exn -> M A) : M A :=
  fun w =>
    match body w with
    | (Raised ex, w') =>
        if isinstance ex c1 then h1 ex w'
        else if isinstance ex c2 then h2 ex w'
        else (Raised ex, w')
    | r => r
    end.

(** The statements guarded by the inner [try] (lines 73 to 81). *)
Definition on_message_parse (self : MqttReader) (message : MQTTMessage)
  : M (list CommandMessage) :=
  let msg_obj_list := [] in
  msg_str <- lift (_decode_message message) ;;
  msg_list <- lift (CommandMessageList_read (message_api self) msg_str) ;;
  lift (prepare_all self msg_list msg_obj_list).

(** The inner [try] statement of the handler (lines 72 to 91).  It yields the
    prepared messages, or [None] when a handler ran [return]. *)
Definition on_message_read (self : MqttReader) (message : MQTTMessage)
  : M (option (list CommandMessage)) :=
  try_except2
    (msg_obj_list <- on_message_parse self message ;;
     ret (Some msg_obj_list))
    InvalidMessageError
    (fun ex =>
       publish (PublishCategory INVALID_MESSAGE (py_str ex)) ;;; ret None)
    UnknownCommandError
    (fun ex =>
       publish (PublishCategory UNKNOWN_COMMAND (py_str ex)) ;;; ret None).

(** The outer [try] statement after its first line (lines 70 to 94). *)
Definition on_message_body (self : MqttReader) (message : MQTTMessage)
  : M unit :=
  r <- on_message_read self message ;;
  match r with
  | None => ret tt
  | Some msg_obj_list =>
      dispatch_all (_on_message_callbacks self) msg_obj_list
  end.

(** The clause [except Exception as ex] (lines 99 to 104).  Its first line
    formats [msg_topic]: when that variable was never assigned, reading it
    raises [UnboundLocalError] and the clause publishes nothing. *)
Definition on_message_except (msg_topic : option string) (ex : Exn) : M unit :=
  match msg_topic with
  | None =>
      raise
        (mkExn UnboundLocalError
           "local variable msg_topic referenced before assignment")
  | Some _ => publish (PublishCategory UNHANDLED (py_str ex))
  end.

(** The function [inner] returned by [MqttReader._on_message].  The first
    line of the outer [try] (line 69) reads [message.topic]: when the read
    raises, the [except] clause runs with [msg_topic] unassigned. *)
Definition _on_message (self : MqttReader) (message : MQTTMessage) : M unit :=
  match topic message with
  | Raised ex => on_message_except None ex
  | Returned msg_topic =>
      try_except_Exception
        (on_message_body self message)
        (on_message_except (Some msg_topic))
  end.

(** ** [CommandMessage]: validation and transformation *)

Module Message.

(** Modelled from the spec: the class [CommandMessage] of [app/message.py]
    is not among the sources.  [validate] fails with [UnknownCommandError]
    when the action matches neither a coil nor a register name, and
    otherwise records the resolved target. *)
Definition validate (c : Configuration) (m : CommandMessage)
  : Outcome CommandMessage :=
  match get_coil c (action m), get_holding_register c (action m) with
  | Some k, _ =>
      Returned {| action := action m; value := value m;
                  resolved_target := Some (TargetCoil k);
                  typed_value := typed_value m |}
  | None, Some r =>
      Returned {| action := action m; value := value m;
                  resolved_target := Some (TargetRegister r);
                  typed_value := typed_value m |}
  | None, None => Raised (mkExn UnknownCommandError (action m))
  end.

(** Modelled from the spec: [CommandMessage.transform] is not among the
    sources.  It requires a resolved target; for a coil it coerces the value
    to a boolean by truthiness and never fails; for a register it fails with
    [InvalidMessageError] when the value is not numeric or does not fit the
    declared data type, the check being the one the codec makes in its first
    step. *)
Definition transform (c : Configuration) (m : CommandMessage)
  : Outcome CommandMessage :=
  match resolved_target m with
  | Some (TargetCoil _) =>
      Returned {| action := action m; value := value m;
                  resolved_target := resolved_target m;
                  typed_value := Some (VBool (py_bool (value m))) |}
  | Some (TargetRegister r) =>
      match PayloadBuilder.natural_bytes (data_type r) (value m) with
      | Returned _ =>
          Returned {| action := action m; value := value m;
                      resolved_target := resolved_target m;
                      typed_value := Some (value m) |}
      | Raised ex => Raised (mkExn InvalidMessageError (py_str ex))
      end
  | None => Raised (mkExn OtherError "transform before validate")
  end.

(** A reader that recognizes one document and parses it to [batch]; every
    other text is rejected as an invalid message.  The properties of the
    handler are proved for every reader; this one serves the examples. *)
Definition read_known (doc : string) (batch : list MsgDict)
  : string -> Outcome (list MsgDict) :=
  fun s =>
    if String.eqb s doc then Returned batch
    else Raised (mkExn InvalidMessageError "Message is invalid JSON").

Definition api (doc : string) (batch : list MsgDict) : MessageApi :=
  Build_MessageApi (read_known doc batch) validate transform.

End Message.

(** ** A sample installation *)

Module Sample.

Definition big_natural : MemoryOrder :=
  {| byte_order := BigEndian; word_order := NaturalWords |}.

Definition big_swapped : MemoryOrder :=
  {| byte_order := BigEndian; word_order := SwappedWords |}.

(** The double 1.0. *)
Definition one : spec_float := S754_finite false 4503599627370496 (-52).

(** [valve] is configured both as a coil and as a register. *)
Definition config : Configuration :=
  {| get_coils :=
       [ {| coil_name := "pump_1"; coil_address := [10] |};
         {| coil_name := "valid_coil"; coil_address := [3] |};
         {| coil_name := "valve"; coil_address := [7] |} ];
     get_holding_registers :=
       [ {| register_name := "setpoint_temp"; register_address := [100];
            data_type := float32; memory_order := big_natural |};
         {| register_name := "valve"; register_address := [20];
            data_type := int16; memory_order := big_natural |};
         {| register_name := "counter"; register_address := [30];
            data_type := uint16; memory_order := big_natural |} ] |}.

(** A transport on which every operation succeeds. *)
Definition reliable : Transport := fun _ _ => None.

(** A transport that refuses every connection. *)
Definition refusing : Transport :=
  fun _ op =>
    match op with
    | OpConnect => Some (ModbusFault "connection refused")
    | _ => None
    end.

(** A transport on which the device rejects every write. *)
Definition rejecting : Transport :=
  fun _ op =>
    match op with
    | OpWriteCoil _ _ _ | OpWriteCoils _ _ | OpWriteRegisters _ _ _ =>
        Some (ModbusFault "illegal data address")
    | _ => None
    end.

Definition client : ModbusClient :=
  {| configuration := config; _client := reliable |}.

(** A callback for the reader: it writes the command with [write_command] on
    [client] and swallows what the write raises. *)
Definition forward : Callback :=
  fun msg_obj =>
    try_except_Exception
      (write_command client (action msg_obj) (value msg_obj) ;;; ret tt)
      (fun _ => ret tt).

Definition rejected_client : ModbusClient :=
  {| configuration := config; _client := rejecting |}.

Definition offline_client : ModbusClient :=
  {| configuration := config; _client := refusing |}.

(** The JSON text of one command object, [v] being the JSON text of its
    value. *)
Definition json_item (a v : string) : string :=
  let q := String (ascii_of_nat 34) EmptyString in
  ("{" ++ q ++ "action" ++ q ++ ":" ++ q ++ a ++ q ++ ","
   ++ q ++ "value" ++ q ++ ":" ++ v ++ "}")%string.

(** The text and the parsed form of the batch
    [[{"action":"valid_coil","value":true},{"action":"bogus","value":1}]]. *)
Definition doc : string :=
  ("[" ++ json_item "valid_coil" "true" ++ ","
   ++ json_item "bogus" "1" ++ "]")%string.

Definition batch : list MsgDict :=
  [ {| dict_action := Some "valid_coil"; dict_value := Some (VBool true) |};
    {| dict_action := Some "bogus"; dict_value := Some (VInt 1) |} ].

Definition reader : MqttReader :=
  {| reader_configuration := config;
     message_api := Message.api doc batch;
     _on_message_callbacks := [forward] |}.

Definition message : MQTTMessage :=
  {| _topic := list_byte_of_string "commands";
     payload := list_byte_of_string doc |}.

(** The text and the parsed form of the batch
    [[{"action":"pump_1","value":true},
    {"action":"setpoint_temp","value":1.0}]]. *)
Definition good_doc : string :=
  ("[" ++ json_item "pump_1" "true" ++ ","
   ++ json_item "setpoint_temp" "1.0" ++ "]")%string.

Definition good_batch : list MsgDict :=
  [ {| dict_action := Some "pump_1"; dict_value := Some (VBool true) |};
    {| dict_action := Some "setpoint_temp";
       dict_value := Some (VFloat one) |} ].

Definition good_reader : MqttReader :=
  {| reader_configuration := config;
     message_api := Message.api good_doc good_batch;
     _on_message_callbacks := [forward] |}.

Definition good_message : MQTTMessage :=
  {| _topic := list_byte_of_string "commands";
     payload := list_byte_of_string good_doc |}.

End Sample.

(** ** [MqttReader]: registering callbacks *)

(** [add_message_callback(f)]: [self._on_message_callbacks.append(f)]. *)
Definition add_message_callback (self : MqttReader) (f : Callback)
  : MqttReader :=
  {| reader_configuration := reader_configuration self;
     message_api := message_api self;
     _on_message_callbacks := _on_message_callbacks self ++ [f] |}.

(** ** Further sample installations *)

Module Scenario.

(** A transport on which connections and writes go through and every close
    fails. *)
Definition stuck_closing : Transport :=
  fun _ op =>
    match op with
    | OpClose => Some (ModbusFault "connection reset")
    | _ => None
    end.

Definition stuck_client : ModbusClient :=
  {| configuration := Sample.config; _client := stuck_closing |}.

(** The two commands of [Sample.good_batch] as [validate] and [transform]
    leave them. *)
Definition pump_on : CommandMessage :=
  {| action := "pump_1"; value := VBool true;
     resolved_target :=
       Some (TargetCoil {| coil_name := "pump_1"; coil_address := [10] |});
     typed_value := Some (VBool true) |}.

Definition setpoint_one : CommandMessage :=
  {| action := "setpoint_temp"; value := VFloat Sample.one;
     resolved_target :=
       Some (TargetRegister
               {| register_name := "setpoint_temp";
                  register_address := [100];
                  data_type := float32;
                  memory_order := Sample.big_natural |});
     typed_value := Some (VFloat Sample.one) |}.

(** A callback that rejects every command. *)
Definition refuse : Callback :=
  fun _ => raise (mkExn OtherError "refused").

(** A reader whose first callback rejects every command. *)
Definition guarded_reader : MqttReader :=
  {| reader_configuration := Sample.config;
     message_api := Message.api Sample.good_doc Sample.good_batch;
     _on_message_callbacks := [refuse; Sample.forward] |}.

(** A transport on which every connection times out at the socket: the
    failure is not a [ModbusException]. *)
Definition timing_out : Transport :=
  fun _ op =>
    match op with
    | OpConnect => Some (OtherFault "timed out")
    | _ => None
    end.

Definition timing_out_client : ModbusClient :=
  {| configuration := Sample.config; _client := timing_out |}.

(** A message whose topic is not UTF-8; its payload is the valid batch. *)
Definition unreadable_topic : MQTTMessage :=
  {| _topic := [Byte.xff];
     payload := list_byte_of_string Sample.good_doc |}.

End Scenario.

(** ** Results with an error of any type *)

Inductive Result (E A : Type) : Type :=
| Done (a : A)
| Failed (e : E).
Arguments Done {E A} a.
Arguments Failed {E A} e.

(** Python's [str(n)] for an integer. *)
Definition str_int (n : Z) : string := NilZero.string_of_int (Z.to_int n).

(** ** [main.py]: the configuration with command-line overrides *)

Module MqttSettings.

(** [MqttSettings(host, port, command_topic)].  The class, of
    [app/configuration.py], is not among the sources: the record holds what
    [main.py] gives its constructor and reads back as attributes. *)
Record t : Type := { host : string; port : Z; command_topic : string }.

End MqttSettings.

Module ModbusSettings.

(** [ModbusSettings(host, port)], of [app/configuration.py] as well. *)
Record t : Type := { host : string; port : Z }.

End ModbusSettings.

(** The whole [Configuration] object as [main.py] builds and reads it:
    [Configuration(coils, holding_registers, mqtt_settings, modbus_settings)],
    whose getters are taken to return what the constructor was given.
    [targets] is the part the writes and the reader look at. *)
Record AppConfiguration : Type :=
  { targets : Configuration;
    get_mqtt_settings : MqttSettings.t;
    get_modbus_settings : ModbusSettings.t }.

(** The namespace [argparse] returns: an option that was not given is
    [None]. *)
Record Args : Type :=
  { configuration_path : string;
    modbus_port : option Z;
    modbus_host : option string;
    mqtt_port : option Z;
    mqtt_host : option string;
    mqtt_topic : option string }.

(** [given or fallback] for a string: [None] and the empty string are
    falsy. *)
Definition or_string (given : option string) (fallback : string) : string :=
  match given with
  | Some s => if String.eqb s EmptyString then fallback else s
  | None => fallback
  end.

(** [given or fallback] for an integer: [None] and 0 are falsy. *)
Definition or_int (given : option Z) (fallback : Z) : Z :=
  match given with
  | Some n => if n =? 0 then fallback else n
  | None => fallback
  end.

(** [get_configuration_with_overrides(args)].  [Configuration.from_file] is
    not among the sources: it is a parameter, and its failure is the failure
    of the function. *)
Definition get_configuration_with_overrides {E : Type}
  (from_file : string -> Result E AppConfiguration) (args : Args)
  : Result E AppConfiguration :=
  match from_file (configuration_path args) with
  | Failed e => Failed e
  | Done configuration =>
      let mqtt_settings := get_mqtt_settings configuration in
      let modbus_settings := get_modbus_settings configuration in
      let mqtt_settings_with_override :=
        {| MqttSettings.host :=
             or_string (mqtt_host args) (MqttSettings.host mqtt_settings);
           MqttSettings.port :=
             or_int (mqtt_port args) (MqttSettings.port mqtt_settings);
           MqttSettings.command_topic :=
             or_string (mqtt_topic args)
               (MqttSettings.command_topic mqtt_settings) |} in
      let modbus_settings_with_override :=
        {| ModbusSettings.host :=
             or_string (modbus_host args)
               (ModbusSettings.host modbus_settings);
           ModbusSettings.port :=
             or_int (modbus_port args)
               (ModbusSettings.port modbus_settings) |} in
      Done
        {| targets :=
             {| get_coils := get_coils (targets configuration);
                get_holding_registers :=
                  get_holding_registers (targets configuration) |};
           get_mqtt_settings := mqtt_settings_with_override;
           get_modbus_settings := modbus_settings_with_override |}
  end.

(** ** The MQTT client *)

(** Exceptions on the MQTT side: an [OSError], with its message and, when it
    was raised [from] another exception, the message of that cause; or an
    exception of any other class. *)
Inductive MqttError : Type :=
| OSError (msg : string) (cause : option string)
| NotOSError (ex : Exn).

(** The callback attributes of the paho client. *)
Inductive Slot : Type := on_connect | on_disconnect | on_message | on_publish.

(** Calls on the paho client. *)
Inductive ClientOp : Type :=
| MqttConnect (host : string) (port : Z)
| MqttSubscribe (topic : string)
| MqttPublish (topic : string) (payload : string) (qos : Z)
| MqttDisconnect
| MqttLoopForever.

Inductive Level : Type := DEBUG | INFO | ERROR.

(** What the MQTT side does to the outside: the calls attempted on the paho
    client, the callback attributes assigned, the lines logged and printed,
    and the invocations of message callbacks. *)
Record Net : Type :=
  { client_log : list ClientOp;
    assigned : list Slot;
    logged : list (Level * string);
    printed : list string;
    invoked : list (nat * string) }.

Definition empty_net : Net :=
  {| client_log := []; assigned := []; logged := []; printed := [];
     invoked := [] |}.

(** The paho client is external: given the calls attempted so far and the
    call attempted now, it either carries it out or raises. *)
Definition Broker : Type := list ClientOp -> ClientOp -> option MqttError.

Definition Run (A : Type) : Type := Net -> Result MqttError A * Net.

Definition run_ret {A} (a : A) : Run A := fun n => (Done a, n).

Definition run_raise {A} (e : MqttError) : Run A := fun n => (Failed e, n).

Definition run_bind {A B} (m : Run A) (k : A -> Run B) : Run B :=
  fun n =>
    match m n with
    | (Done a, n') => k a n'
    | (Failed e, n') => (Failed e, n')
    end.

Notation "x <~ m ;; k" := (run_bind m (fun x => k))
  (at level 61, m at next level, right associativity).
Notation "m ;;~ k" := (run_bind m (fun _ => k))
  (at level 61, right associativity).

Definition client_call (b : Broker) (op : ClientOp) : Run unit :=
  fun n =>
    let n' := {| client_log := client_log n ++ [op];
                 assigned := assigned n;
                 logged := logged n;
                 printed := printed n;
                 invoked := invoked n |} in
    match b (client_log n) op with
    | None => (Done tt, n')
    | Some e => (Failed e, n')
    end.

(** [self._client.on_... = ...]. *)
Definition assign (s : Slot) : Run unit :=
  fun n =>
    (Done tt,
     {| client_log := client_log n;
        assigned := assigned n ++ [s];
        logged := logged n;
        printed := printed n;
        invoked := invoked n |}).

(** [logging.debug], [logging.info], [logging.error]. *)
Definition logging (l : Level) (line : string) : Run unit :=
  fun n =>
    (Done tt,
     {| client_log := client_log n;
        assigned := assigned n;
        logged := logged n ++ [(l, line)];
        printed := printed n;
        invoked := invoked n |}).

(** [print(line)]. *)
Definition print (line : string) : Run unit :=
  fun n =>
    (Done tt,
     {| client_log := client_log n;
        assigned := assigned n;
        logged := logged n;
        printed := printed n ++ [line];
        invoked := invoked n |}).

Definition record_invocation (i : nat) (msg : string) : Run unit :=
  fun n =>
    (Done tt,
     {| client_log := client_log n;
        assigned := assigned n;
        logged := logged n;
        printed := printed n;
        invoked := invoked n ++ [(i, msg)] |}).

(** [try: body except OSError as e: handler e], [handler] being given the
    message of [e]. *)
Definition try_except_OSError {A} (body : Run A) (handler : string -> Run A)
  : Run A :=
  fun n =>
    match body n with
    | (Failed (OSError msg _), n') => handler msg n'
    | r => r
    end.

(** [host:port] as the f-strings print it. *)
Definition endpoint (host : string) (port : Z) : string :=
  (host ++ ":" ++ str_int port)%string.

(** A pure result run inside [Run]. *)
Definition run_lift {A} (r : Result MqttError A) : Run A := fun n => (r, n).

(** [_decode_message(message)] on the MQTT side: its exception is not an
    [OSError]. *)
Definition decode_message (message : MQTTMessage) : Run string :=
  run_lift
    match _decode_message message with
    | Returned msg => Done msg
    | Raised ex => Failed (NotOSError ex)
    end.

(** ** [MqttWriter] *)

Module MqttWriter.

Record t : Type := { host : string; port : Z; _client : Broker }.

(** [_on_publish()]: the function [inner]. *)
Definition _on_publish (self : t) (message_id : Z) : Run unit :=
  logging DEBUG ("Published message with id " ++ str_int message_id)%string.

(** [MqttWriter(host, port, client)]. *)
Definition init (host : string) (port : Z) (client : Broker) : Run t :=
  assign on_publish ;;~
  run_ret {| host := host; port := port; _client := client |}.

Definition connect (self : t) : Run bool :=
  try_except_OSError
    (client_call (_client self) (MqttConnect (host self) (port self)) ;;~
     run_ret true)
    (fun cause =>
       run_raise
         (OSError
            ("Cannot assign requested address: "
             ++ endpoint (host self) (port self))%string
            (Some cause))).

(** [publish(topic, payload)].  [ErrorMessage.write] is not among the
    sources: it is the parameter [write], which may raise; [show] is
    [str(payload)]. *)
Definition publish {P : Type} (write : P -> Result MqttError string)
  (show : P -> string) (self : t) (topic : string) (payload : P) : Run unit :=
  connected <~ connect self ;;
  if connected
  then
    text <~ run_lift (write payload) ;;
    client_call (_client self) (MqttPublish topic text 1)
  else
    logging ERROR
      ("Failed to publish to " ++ topic ++ ": " ++ show payload)%string.

End MqttWriter.

(** ** [MqttReader]: the connection *)

Module ReaderConnection.

(** The attributes of [MqttReader] that its connection uses, beside the
    reader the message handler runs on. *)
Record t : Type :=
  { reader : MqttReader;
    _client : Broker;
    _host : string;
    _port : Z;
    _topics : list string }.

(** [MqttReader(configuration, client, error_handler)]. *)
Definition init (configuration : AppConfiguration) (api : MessageApi)
  (client : Broker) : t :=
  {| reader :=
       {| reader_configuration := targets configuration;
          message_api := api;
          _on_message_callbacks := [] |};
     _client := client;
     _host := MqttSettings.host (get_mqtt_settings configuration);
     _port := MqttSettings.port (get_mqtt_settings configuration);
     _topics :=
       [MqttSettings.command_topic (get_mqtt_settings configuration)] |}.

Definition connect (self : t) : Run bool :=
  try_except_OSError
    (client_call (_client self) (MqttConnect (_host self) (_port self)) ;;~
     run_ret true)
    (fun cause =>
       run_raise
         (OSError
            ("Cannot connect to MQTT broker at "
             ++ endpoint (_host self) (_port self))%string
            (Some cause))).

Definition stop (self : t) : Run unit :=
  client_call (_client self) MqttDisconnect.

Definition run (self : t) : Run unit :=
  assign on_connect ;;~
  assign on_disconnect ;;~
  assign on_message ;;~
  connect self ;;~
  logging INFO "Service started" ;;~
  client_call (_client self) MqttLoopForever.

(** The loop [for topic in self._topics] of [_on_connect]. *)
Fixpoint subscribe_all (client : Broker) (topics : list string) : Run unit :=
  match topics with
  | [] => run_ret tt
  | topic :: rest =>
      logging INFO ("Subscribing to topic: " ++ topic)%string ;;~
      client_call client (MqttSubscribe topic) ;;~
      subscribe_all client rest
  end.

(** [_on_connect()]: the function [inner], called by paho with the client
    and the reason code. *)
Definition _on_connect (self : t) (client : Broker) (reason_code : Z)
  : Run unit :=
  if reason_code =? 0
  then
    logging INFO "Connected to MQTT broker" ;;~
    subscribe_all client (_topics self)
  else
    logging ERROR
      ("Problem connecting to MQTT broker: " ++ str_int reason_code)%string.

(** [_on_disconnect()]: the function [inner]. *)
Definition _on_disconnect (self : t) (reason_code : Z) : Run unit :=
  if 0 <? reason_code
  then
    logging ERROR
      ("MQTT client has disconnected: " ++ str_int reason_code)%string
  else run_ret tt.

End ReaderConnection.

(** ** [MqttClient] *)

Module MqttClient.

Record t : Type :=
  { client : Broker;
    host : string;
    port : Z;
    on_message_callbacks : list (string -> Run unit);
    topics : list string }.

(** [MqttClient(port, host)]; [client] is the behaviour of the paho client
    the constructor creates. *)
Definition init (port : Z) (host : string) (client : Broker) : t :=
  {| client := client; host := host; port := port;
     on_message_callbacks := []; topics := [] |}.

(** [self.topics.append(topic)]. *)
Definition append_topic (self : t) (topic : string) : t :=
  {| client := client self; host := host self; port := port self;
     on_message_callbacks := on_message_callbacks self;
     topics := topics self ++ [topic] |}.

(** [subscribe_topics(topics)]: the loop [for topic in topics]. *)
Definition subscribe_topics (self : t) (new_topics : list string) : t :=
  fold_left append_topic new_topics self.

Definition add_message_callback (self : t) (f : string -> Run unit) : t :=
  {| client := client self; host := host self; port := port self;
     on_message_callbacks := on_message_callbacks self ++ [f];
     topics := topics self |}.

Definition run (self : t) : Run unit :=
  assign on_connect ;;~
  assign on_message ;;~
  client_call (client self) (MqttConnect (host self) (port self)) ;;~
  client_call (client self) MqttLoopForever.

(** The loop [for topic in self.topics] of [_on_connect]. *)
Fixpoint subscribe_all (handed : Broker) (ts : list string) : Run unit :=
  match ts with
  | [] => run_ret tt
  | topic :: rest =>
      client_call handed (MqttSubscribe topic) ;;~
      subscribe_all handed rest
  end.

(** [_on_connect()]: the function [inner], called with the client and the
    result code. *)
Definition _on_connect (self : t) (handed : Broker) (rc : Z) : Run unit :=
  if rc =? 0
  then
    print "Connected to MQTT broker" ;;~
    subscribe_all handed (topics self)
  else print "Connection failed".

(** The loop [for callback in self.on_message_callbacks]; the net records
    each invocation. *)
Fixpoint call_all (i : nat) (callbacks : list (string -> Run unit))
  (msg : string) : Run unit :=
  match callbacks with
  | [] => run_ret tt
  | callback :: rest =>
      record_invocation i msg ;;~
      callback msg ;;~
      call_all (S i) rest msg
  end.

(** [_on_message()]: the function [inner]. *)
Definition _on_message (self : t) (message : MQTTMessage) : Run unit :=
  msg <~ decode_message message ;;
  call_all 0 (on_message_callbacks self) msg.

End MqttClient.

(** ** Sample deployments of the MQTT side *)

Module Deployment.

Definition file_configuration : AppConfiguration :=
  {| targets := Sample.config;
     get_mqtt_settings :=
       {| MqttSettings.host := "broker.local";
          MqttSettings.port := 1883;
          MqttSettings.command_topic := "commands" |};
     get_modbus_settings :=
       {| ModbusSettings.host := "plc.local"; ModbusSettings.port := 502 |} |}.

(** A loader that knows one file. *)
Definition load (path : string) : Result string AppConfiguration :=
  if String.eqb path "config/configuration.yaml"
  then Done file_configuration
  else Failed "no such file".

(** [--mqtt_port 0 --mqtt_host test.local --modbus_host ''] (the empty
    string). *)
Definition command_line : Args :=
  {| configuration_path := "config/configuration.yaml";
     modbus_port := None;
     modbus_host := Some EmptyString;
     mqtt_port := Some 0;
     mqtt_host := Some "test.local";
     mqtt_topic := None |}.

(** A broker client on which every call goes through. *)
Definition accepting : Broker := fun _ _ => None.

(** A broker client that refuses every connection. *)
Definition unreachable : Broker :=
  fun _ op =>
    match op with
    | MqttConnect _ _ => Some (OSError "Connection refused" None)
    | _ => None
    end.

Definition writer : MqttWriter.t :=
  {| MqttWriter.host := "broker.local"; MqttWriter.port := 1883;
     MqttWriter._client := accepting |}.

Definition cut_off_writer : MqttWriter.t :=
  {| MqttWriter.host := "broker.local"; MqttWriter.port := 1883;
     MqttWriter._client := unreachable |}.

(** A serializer of error payloads that never fails. *)
Definition write_text (payload : string) : Result MqttError string :=
  Done payload.

Definition show_text (payload : string) : string := payload.

Definition cut_off_reader : ReaderConnection.t :=
  ReaderConnection.init file_configuration
    (Message.api Sample.doc Sample.batch) unreachable.

Definition connected_reader : ReaderConnection.t :=
  ReaderConnection.init file_configuration
    (Message.api Sample.doc Sample.batch) accepting.

(** A message callback that prints the message. *)
Definition note : string -> Run unit := fun msg => print msg.

(** A message callback that rejects every message. *)
Definition choke : string -> Run unit :=
  fun _ => run_raise (NotOSError (mkExn OtherError "bad message")).

Definition client : MqttClient.t :=
  MqttClient.init 1883 "broker.local" accepting.

Definition cut_off_client : MqttClient.t :=
  MqttClient.init 1883 "broker.local" unreachable.

(** The client with two callbacks registered, [note] twice. *)
Definition listening_client : MqttClient.t :=
  MqttClient.add_message_callback
    (MqttClient.add_message_callback client note) note.

(** The client with [choke] registered before [note]. *)
Definition choking_client : MqttClient.t :=
  MqttClient.add_message_callback
    (MqttClient.add_message_callback client choke) note.

Definition hello : MQTTMessage :=
  {| _topic := list_byte_of_string "foo";
     payload := list_byte_of_string "hello" |}.

Definition garbled : MQTTMessage :=
  {| _topic := list_byte_of_string "foo"; payload := [Byte.xff] |}.

End Deployment.

(** * Properties *)

(** ** Vocabulary of the statements *)

Definition transport_reliable (t : Transport) : Prop :=
  forall history op, t history op = None.

(** The world after the operations [ops] were attempted on the transport. *)
Definition after_ops (ops : list TransportOp) (w : World) : World :=
  {| modbus_log := modbus_log w ++ ops;
     published := published w;
     dispatched := dispatched w |}.

(** The world after the events [ps] were published. *)
Definition after_publishing (ps : list Published) (w : World) : World :=
  {| modbus_log := modbus_log w;
     published := published w ++ ps;
     dispatched := dispatched w |}.

(** The first of the operations [ops], attempted in turn on the transport
    [t] after the operations [history], that fails: the operations attempted
    up to and including it, and its fault.  [None] when all go through. *)
Fixpoint first_fault (t : Transport) (history ops : list TransportOp)
  : option (list TransportOp * Fault) :=
  match ops with
  | [] => None
  | op :: rest =>
      match t history op with
      | Some f => Some ([op], f)
      | None =>
          match first_fault t (history ++ [op]) rest with
          | Some (attempted, f) => Some (op :: attempted, f)
          | None => None
          end
      end
  end.

(** A run ends as a reported transport error: it raises [ModbusClientError]
    and has published one exception. *)
Definition reported_as_transport_error {A} (run : M A) (w : World) : Prop :=
  exists msg e,
    fst (run w) = Raised (mkExn ModbusClientError msg)
    /\ published (snd (run w)) = published w ++ [PublishExn e].

(** What a write whose operations are [ops] does when one of them fails: it
    stops at the first that fails, nothing being attempted after it.  When
    the failure is a [ModbusException], the exception is published, the only
    event of the run, and [ModbusClientError] is raised with its message;
    when it is any other exception, that exception leaves the write as it is
    and nothing is published. *)
Definition stops_at_first_fault {A} (run : M A) (t : Transport) (w : World)
  (ops : list TransportOp) : Prop :=
  forall attempted f,
    first_fault t (modbus_log w) ops = Some (attempted, f) ->
    match f with
    | ModbusFault msg =>
        run w
        = (Raised (mkExn ModbusClientError msg),
           after_publishing [PublishExn (mkExn ModbusException msg)]
             (after_ops attempted w))
    | OtherFault msg =>
        run w = (Raised (mkExn OtherError msg), after_ops attempted w)
    end.

Definition write_failure_class (c : ExnClass) : Prop :=
  c = ModbusClientError \/ c = InvalidMessageError
  \/ c = IndexError \/ c = OtherError.

(** The number of targets configured under [name]. *)
Definition matches (c : Configuration) (name : string) : Z :=
  match get_coil c name with Some _ => 1 | None => 0 end
  + match get_holding_register c name with Some _ => 1 | None => 0 end.

Definition item_fails (self : MqttReader) (msg_dict : MsgDict) : Prop :=
  exists ex, prepare self msg_dict = Raised ex.

Definition item_passes (self : MqttReader) (msg_dict : MsgDict) : Prop :=
  exists msg_obj, prepare self msg_dict = Returned msg_obj.

(** What the handler publishes for an exception raised while a batch is
    read. *)
Definition report (ex : Exn) : Published :=
  if isinstance ex InvalidMessageError
  then PublishCategory INVALID_MESSAGE (py_str ex)
  else if isinstance ex UnknownCommandError
       then PublishCategory UNKNOWN_COMMAND (py_str ex)
       else PublishCategory UNHANDLED (py_str ex).

Definition is_byte (b : Z) : Prop := 0 <= b < 256.

Definition is_word16 (w : Z) : Prop := 0 <= w < 65536.

(** The application errors: the classes [ModbusClient] raises itself, each
    after publishing. *)
Definition is_reported (c : ExnClass) : bool :=
  match c with
  | ModbusClientError | InvalidMessageError | UnknownCommandError => true
  | _ => false
  end.

(** What a run publishes: nothing when it returns, nothing when an exception
    of another class passes through it, and exactly one exception, whose
    message is the message of the error raised, when it raises an application
    error. *)
Definition publishes_what_it_raises {A} (run : M A) (w : World) : Prop :=
  match run w with
  | (Returned _, w') => published w' = published w
  | (Raised ex, w') =>
      if is_reported (exn_class ex)
      then exists e,
          published w' = published w ++ [PublishExn e]
          /\ py_str e = py_str ex
      else published w' = published w
  end.

(** The operations a run attempts on the transport are an initial segment of
    [all]. *)
Definition attempts_prefix_of {A} (run : M A) (w : World)
  (all : list TransportOp) : Prop :=
  exists ops rest,
    modbus_log (snd (run w)) = modbus_log w ++ ops /\ ops ++ rest = all.

(** In a run that raises, a close is attempted only as the last operation,
    and then it is the close that failed. *)
Definition leaves_open_on_failure {A} (run : M A) (t : Transport) (w : World)
  : Prop :=
  forall ex w' ops,
    run w = (Raised ex, w') ->
    modbus_log w' = modbus_log w ++ ops ->
    In OpClose ops ->
    exists pre f,
      ops = pre ++ [OpClose] /\ t (modbus_log w ++ pre) OpClose = Some f.

(** A callback that returns normally and leaves the record of dispatched
    messages alone. *)
Definition well_behaved (callback : Callback) : Prop :=
  forall msg_obj w,
    fst (callback msg_obj w) = Returned tt
    /\ dispatched (snd (callback msg_obj w)) = dispatched w.

(** The invocations recorded when callbacks number [i], [i+1], ... [i+n-1]
    are called on [msg_obj] in turn. *)
Definition invocations_from (i n : nat) (msg_obj : CommandMessage)
  : list (nat * CommandMessage) :=
  map (fun j => (j, msg_obj)) (seq i n).

(** The invocations recorded when each of [n] callbacks is called on each
    message, message by message. *)
Definition invocations (n : nat) (msg_obj_list : list CommandMessage)
  : list (nat * CommandMessage) :=
  flat_map (invocations_from 0 n) msg_obj_list.

(** [batch] prepares, item by item, into [msg_obj_list]. *)
Definition prepares_to (self : MqttReader) (batch : list MsgDict)
  (msg_obj_list : list CommandMessage) : Prop :=
  Forall2 (fun msg_dict msg_obj => prepare self msg_dict = Returned msg_obj)
    batch msg_obj_list.

Definition broker_reliable (b : Broker) : Prop :=
  forall history op, b history op = None.

(** The net after the calls [ops] were attempted on the paho client. *)
Definition after_calls (ops : list ClientOp) (n : Net) : Net :=
  {| client_log := client_log n ++ ops;
     assigned := assigned n;
     logged := logged n;
     printed := printed n;
     invoked := invoked n |}.

(** The net after the callback attributes [slots] were assigned. *)
Definition after_assigning (slots : list Slot) (n : Net) : Net :=
  {| client_log := client_log n;
     assigned := assigned n ++ slots;
     logged := logged n;
     printed := printed n;
     invoked := invoked n |}.

(** The net after the lines [lines] were logged. *)
Definition after_logging (lines : list (Level * string)) (n : Net) : Net :=
  {| client_log := client_log n;
     assigned := assigned n;
     logged := logged n ++ lines;
     printed := printed n;
     invoked := invoked n |}.

(** The net after the lines [lines] were printed. *)
Definition after_printing (lines : list string) (n : Net) : Net :=
  {| client_log := client_log n;
     assigned := assigned n;
     logged := logged n;
     printed := printed n ++ lines;
     invoked := invoked n |}.

(** A message callback of [MqttClient] that returns normally and leaves the
    record of invocations alone. *)
Definition net_well_behaved (callback : string -> Run unit) : Prop :=
  forall msg n,
    fst (callback msg n) = Done tt
    /\ invoked (snd (callback msg n)) = invoked n.

Ltac unfold_monad :=
  unfold modbus_failed in *;
  unfold bind, ret, raise, lift, try_except, try_except_Exception,
    try_except2, publish, transport_call, index0,
    after_ops, after_publishing in *.

Ltac same_world :=
  simpl; repeat rewrite <- app_assoc; simpl; try rewrite app_nil_r;
  reflexivity.

(** ** Writes on a reliable transport *)

Lemma write_coil_configured :
  forall self name v w k a rest,
    get_coil (configuration self) name = Some k ->
    coil_address k = a :: rest ->
    transport_reliable (_client self) ->
    write_coil self name v w
    = (Returned 1, after_ops [OpConnect; OpWriteCoil a v 1; OpClose] w).
Proof.
  intros self name v w k a rest Hk Ha Hrel. unfold write_coil. rewrite Hk.
  unfold_monad. rewrite Ha. rewrite !Hrel. destruct w. same_world.
Qed.

Lemma write_register_configured :
  forall self name v w r a rest words,
    get_holding_register (configuration self) name = Some r ->
    register_address r = a :: rest ->
    _build_register_payload r v = Returned words ->
    transport_reliable (_client self) ->
    write_register self name v w
    = (Returned 1,
       after_ops [OpConnect; OpWriteRegisters a words 1; OpClose] w).
Proof.
  intros self name v w r a rest words Hr Ha Hwords Hrel.
  unfold write_register. rewrite Hr. unfold_monad. rewrite Hwords, Ha.
  rewrite !Hrel. destruct w. same_world.
Qed.

Ltac run_returned finish :=
  repeat first
    [ match goal with
      | |- context [match ?t ?h ?op with Some _ => _ | None => _ end] =>
          destruct (t h op) as [[?|?]|]; simpl
      | |- context [match ?l with [] => _ | _ :: _ => _ end] =>
          destruct l; simpl
      | |- (Raised _, _) = (Returned _, _) -> _ =>
          let H := fresh in intros H; discriminate H
      | |- (Returned _, _) = (Returned _, _) -> _ =>
          let H := fresh in
          intros H; injection H as <- <-; split; [reflexivity|]; finish
      end ].

Lemma write_coil_returned_log :
  forall self name v w k n w',
    get_coil (configuration self) name = Some k ->
    write_coil self name v w = (Returned n, w') ->
    n = 1
    /\ exists a,
        index0 (coil_address k) = Returned a
        /\ w' = after_ops [OpConnect; OpWriteCoil a v 1; OpClose] w.
Proof.
  intros self name v w k n w' Hk. unfold write_coil. rewrite Hk.
  unfold_monad. destruct w as [l p d]. simpl.
  run_returned ltac:(eexists; split; [reflexivity|same_world]).
Qed.

Lemma write_coils_returned_log :
  forall self name vs w k n w',
    get_coil (configuration self) name = Some k ->
    write_coils self name vs w = (Returned n, w') ->
    n = Z.of_nat (List.length vs)
    /\ exists a,
        index0 (coil_address k) = Returned a
        /\ w' = after_ops [OpConnect; OpWriteCoils a vs; OpClose] w.
Proof.
  intros self name vs w k n w' Hk. unfold write_coils. rewrite Hk.
  unfold_monad. destruct w as [l p d]. simpl.
  run_returned ltac:(eexists; split; [reflexivity|same_world]).
Qed.


(** ** [write_coil] *)

(** C5: [write_coil(name, value)] returns 0, raises nothing and attempts no
    transport operation when no coil is configured under [name].  When a coil
    is configured, every run that returns has connected, issued exactly one
    discrete write at the base address [address[0]] with [value], closed, and
    returned 1; and on a transport that carries out what it is asked, with a
    base address [a], the run does return. *)
Theorem write_coil_count :
  forall (self : ModbusClient) (name : string) (v : bool) (w : World),
    (get_coil (configuration self) name = None ->
     write_coil self name v w = (Returned 0, w))
    /\
    (forall k n w',
        get_coil (configuration self) name = Some k ->
        write_coil self name v w = (Returned n, w') ->
        n = 1
        /\ exists a,
            index0 (coil_address k) = Returned a
            /\ w' = after_ops [OpConnect; OpWriteCoil a v 1; OpClose] w)
    /\
    (forall k a rest,
        get_coil (configuration self) name = Some k ->
        coil_address k = a :: rest ->
        transport_reliable (_client self) ->
        write_coil self name v w
        = (Returned 1, after_ops [OpConnect; OpWriteCoil a v 1; OpClose] w)).
Proof.
  intros self name v w. split; [|split].
  - intros Hnone. unfold write_coil. rewrite Hnone. reflexivity.
  - intros k n w' Hk Hrun.
    exact (write_coil_returned_log self name v w k n w' Hk Hrun).
  - intros k a rest Hk Ha Hrel.
    exact (write_coil_configured self name v w k a rest Hk Ha Hrel).
Qed.

Lemma write_coil_count_witness :
  get_coil (configuration Sample.client) "pump_1"
  = Some {| coil_name := "pump_1"; coil_address := [10] |}
  /\ write_coil Sample.client "pump_1" true empty_world
     = (Returned 1,
        after_ops [OpConnect; OpWriteCoil 10 true 1; OpClose] empty_world).
Proof.
  split.
  - reflexivity.
  - apply (proj2 (proj2 (write_coil_count Sample.client "pump_1" true
                           empty_world))
             {| coil_name := "pump_1"; coil_address := [10] |} 10 []).
    + reflexivity.
    + reflexivity.
    + intros history op. reflexivity.
Defined.

(** ** [write_register] *)



(** ** [write_coils] *)

(** C10: for a name configured as a coil, every run of
    [write_coils(name, [])] that returns has attempted a multi-coil write of
    zero coils at the base address and returned [len([])], that is 0; on a
    transport that carries out what it is asked, with base address [a], the
    run does return.  For a name with no coil the result is 0 as well, so the
    two return values are the same. *)
Theorem write_coils_empty :
  forall (self : ModbusClient) (name other : string) (w : World) k a rest,
    get_coil (configuration self) name = Some k ->
    coil_address k = a :: rest ->
    transport_reliable (_client self) ->
    get_coil (configuration self) other = None ->
    (forall n w',
        write_coils self name [] w = (Returned n, w') ->
        n = 0 /\ w' = after_ops [OpConnect; OpWriteCoils a []; OpClose] w)
    /\ write_coils self name [] w
       = (Returned 0, after_ops [OpConnect; OpWriteCoils a []; OpClose] w)
    /\ write_coils self other [] w = (Returned 0, w)
    /\ fst (write_coils self name [] w) = fst (write_coils self other [] w).
Proof.
  intros self name other w k a rest Hk Ha Hrel Hother.
  assert (Hconf : write_coils self name [] w
                  = (Returned 0,
                     after_ops [OpConnect; OpWriteCoils a []; OpClose] w)).
  { unfold write_coils. rewrite Hk. unfold_monad. rewrite Ha. rewrite !Hrel.
    destruct w. same_world. }
  assert (Hunconf : write_coils self other [] w = (Returned 0, w)).
  { unfold write_coils. rewrite Hother. reflexivity. }
  split; [|split; [exact Hconf|split; [exact Hunconf|]]].
  - intros n w' Hrun. rewrite Hconf in Hrun. injection Hrun as <- <-.
    split; reflexivity.
  - rewrite Hconf, Hunconf. reflexivity.
Qed.

Lemma write_coils_empty_witness :
  write_coils Sample.client "pump_1" [] empty_world
  = (Returned 0, after_ops [OpConnect; OpWriteCoils 10 []; OpClose] empty_world)
  /\ write_coils Sample.client "no_such_target" [] empty_world
     = (Returned 0, empty_world)
  /\ fst (write_coils Sample.client "pump_1" [] empty_world)
     = fst (write_coils Sample.client "no_such_target" [] empty_world).
Proof.
  apply (proj2 (write_coils_empty Sample.client "pump_1" "no_such_target"
                  empty_world
                  {| coil_name := "pump_1"; coil_address := [10] |} 10 []
                  eq_refl eq_refl (fun history op => eq_refl) eq_refl)).
Defined.

(** ** Transport failures *)

Ltac step_transport :=
  match goal with
  | |- context [match ?t ?h ?op with Some _ => _ | None => _ end] =>
      let E := fresh "E" in
      destruct (t h op) as [[?|?]|] eqn:E; simpl
  end.

Ltac stop_at_fault :=
  intros attempted f Hfirst; simpl in Hfirst;
  repeat match type of Hfirst with
    | context [match ?t ?h ?op with Some _ => _ | None => _ end] =>
        let E := fresh "E" in
        destruct (t h op) as [[?|?]|] eqn:E; simpl in Hfirst |- *
    end;
  first [ discriminate Hfirst
        | injection Hfirst as <- <-; simpl; f_equal;
          unfold after_publishing, after_ops; simpl;
          rewrite <- ?app_assoc; reflexivity ].

Lemma write_coil_stops_at_first_fault :
  forall self name v w k a rest,
    get_coil (configuration self) name = Some k ->
    coil_address k = a :: rest ->
    stops_at_first_fault (write_coil self name v) (_client self) w
      [OpConnect; OpWriteCoil a v 1; OpClose].
Proof.
  intros self name v w k a rest Hk Ha.
  unfold stops_at_first_fault, write_coil. rewrite Hk.
  unfold modbus_failed.
  unfold bind, ret, raise, lift, try_except, publish, transport_call, index0.
  rewrite Ha. destruct w as [l p d]. simpl. stop_at_fault.
Qed.

Lemma write_coils_stops_at_first_fault :
  forall self name vs w k a rest,
    get_coil (configuration self) name = Some k ->
    coil_address k = a :: rest ->
    stops_at_first_fault (write_coils self name vs) (_client self) w
      [OpConnect; OpWriteCoils a vs; OpClose].
Proof.
  intros self name vs w k a rest Hk Ha.
  unfold stops_at_first_fault, write_coils. rewrite Hk.
  unfold modbus_failed.
  unfold bind, ret, raise, lift, try_except, publish, transport_call, index0.
  rewrite Ha. destruct w as [l p d]. simpl. stop_at_fault.
Qed.

Lemma write_register_stops_at_first_fault :
  forall self name v w r a rest words,
    get_holding_register (configuration self) name = Some r ->
    register_address r = a :: rest ->
    _build_register_payload r v = Returned words ->
    stops_at_first_fault (write_register self name v) (_client self) w
      [OpConnect; OpWriteRegisters a words 1; OpClose].
Proof.
  intros self name v w r a rest words Hr Ha Hwords.
  unfold stops_at_first_fault, write_register. rewrite Hr.
  unfold modbus_failed.
  unfold bind, ret, raise, lift, try_except, try_except_Exception, publish,
    transport_call, index0.
  rewrite Hwords, Ha. destruct w as [l p d]. simpl. stop_at_fault.
Qed.

(** C7, for each kind of failure: in [write_coil], [write_coils] and
    [write_register] on a configured target, the first operation on the
    transport that fails (the connection, the write or the close) ends the
    write: nothing further is attempted, so nothing is retried.  When it fails with a [ModbusException]
    the exception is caught, published to the error handler, and
    [ModbusClientError] is raised; when it fails with any other exception,
    that exception leaves the write uncaught and nothing is published. *)
Theorem transport_failure_is_reported :
  forall (self : ModbusClient) (name : string) (w : World),
    (forall v k a rest,
        get_coil (configuration self) name = Some k ->
        coil_address k = a :: rest ->
        stops_at_first_fault (write_coil self name v) (_client self) w
          [OpConnect; OpWriteCoil a v 1; OpClose])
    /\ (forall vs k a rest,
           get_coil (configuration self) name = Some k ->
           coil_address k = a :: rest ->
           stops_at_first_fault (write_coils self name vs) (_client self) w
             [OpConnect; OpWriteCoils a vs; OpClose])
    /\ (forall v r a rest words,
           get_holding_register (configuration self) name = Some r ->
           register_address r = a :: rest ->
           _build_register_payload r v = Returned words ->
           stops_at_first_fault (write_register self name v) (_client self) w
             [OpConnect; OpWriteRegisters a words 1; OpClose]).
Proof.
  intros self name w. split; [|split].
  - intros v k a rest. apply write_coil_stops_at_first_fault.
  - intros vs k a rest. apply write_coils_stops_at_first_fault.
  - intros v r a rest words. apply write_register_stops_at_first_fault.
Qed.

(** A refused connection in [write_coil], a write the device rejects in
    [write_coils], a close that fails in [write_register]. *)
Lemma transport_failure_is_reported_witness :
  write_coil Sample.offline_client "pump_1" true empty_world
  = (Raised (mkExn ModbusClientError "connection refused"),
     after_publishing
       [PublishExn (mkExn ModbusException "connection refused")]
       (after_ops [OpConnect] empty_world))
  /\ write_coils Sample.rejected_client "pump_1" [true; false] empty_world
     = (Raised (mkExn ModbusClientError "illegal data address"),
        after_publishing
          [PublishExn (mkExn ModbusException "illegal data address")]
          (after_ops [OpConnect; OpWriteCoils 10 [true; false]] empty_world))
  /\ write_register Scenario.stuck_client "setpoint_temp"
       (VFloat Sample.one) empty_world
     = (Raised (mkExn ModbusClientError "connection reset"),
        after_publishing
          [PublishExn (mkExn ModbusException "connection reset")]
          (after_ops
             [OpConnect; OpWriteRegisters 100 [0x3F80; 0] 1; OpClose]
             empty_world)).
Proof.
  split; [|split].
  - apply (proj1 (transport_failure_is_reported Sample.offline_client
                    "pump_1" empty_world)
             true {| coil_name := "pump_1"; coil_address := [10] |} 10 []
             eq_refl eq_refl [OpConnect] (ModbusFault "connection refused")).
    reflexivity.
  - apply (proj1 (proj2 (transport_failure_is_reported Sample.rejected_client
                           "pump_1" empty_world))
             [true; false] {| coil_name := "pump_1"; coil_address := [10] |}
             10 [] eq_refl eq_refl
             [OpConnect; OpWriteCoils 10 [true; false]]
             (ModbusFault "illegal data address")).
    reflexivity.
  - assert (Hwords : _build_register_payload
                       {| register_name := "setpoint_temp";
                          register_address := [100];
                          data_type := float32;
                          memory_order := Sample.big_natural |}
                       (VFloat Sample.one)
                     = Returned [0x3F80; 0])
      by (vm_compute; reflexivity).
    apply (proj2 (proj2 (transport_failure_is_reported Scenario.stuck_client
                           "setpoint_temp" empty_world))
             (VFloat Sample.one)
             {| register_name := "setpoint_temp"; register_address := [100];
                data_type := float32; memory_order := Sample.big_natural |}
             100 [] [0x3F80; 0] eq_refl eq_refl Hwords
             [OpConnect; OpWriteRegisters 100 [0x3F80; 0] 1; OpClose]
             (ModbusFault "connection reset")).
    reflexivity.
Defined.

(** The claim as first stated does not hold: a connection that fails with an
    exception other than [ModbusException] is a failure of the transport
    during the write, and [write_coil] neither publishes it nor raises
    [ModbusClientError]. *)
Lemma transport_failure_not_always_reported :
  first_fault (_client Scenario.timing_out_client) (modbus_log empty_world)
    [OpConnect; OpWriteCoil 10 true 1; OpClose]
  = Some ([OpConnect], OtherFault "timed out")
  /\ write_coil Scenario.timing_out_client "pump_1" true empty_world
     = (Raised (mkExn OtherError "timed out"),
        after_ops [OpConnect] empty_world)
  /\ ~ reported_as_transport_error
        (write_coil Scenario.timing_out_client "pump_1" true) empty_world.
Proof.
  split; [reflexivity|]. split; [reflexivity|].
  intros (msg & e & Hraise & Hpublished).
  simpl in Hraise. discriminate Hraise.
Qed.

(** ** What the writes return and raise *)

Ltac run_outcome :=
  repeat first
    [ step_transport
    | match goal with
      | |- context [match ?l with [] => _ | _ :: _ => _ end] =>
          destruct l; simpl
      | |- (Raised _, _) = (Returned _, _) -> _ =>
          let H := fresh in intros H; discriminate H
      | |- (Returned _, _) = (Raised _, _) -> _ =>
          let H := fresh in intros H; discriminate H
      | |- (_, _) = (_, _) -> _ =>
          let H := fresh in
          intros H; injection H as <- <-; simpl;
          unfold write_failure_class; auto 6
      end ].

Lemma write_coil_raised_class :
  forall self name v w ex w',
    write_coil self name v w = (Raised ex, w') ->
    write_failure_class (exn_class ex).
Proof.
  intros self name v w ex w'. unfold write_coil.
  destruct (get_coil (configuration self) name) as [k|];
    unfold_monad; destruct w as [l p d]; simpl; run_outcome.
Qed.

Lemma write_coil_returned :
  forall self name v w n w',
    write_coil self name v w = (Returned n, w') ->
    match get_coil (configuration self) name with
    | Some _ => n = 1
    | None => n = 0 /\ w' = w
    end.
Proof.
  intros self name v w n w'. unfold write_coil.
  destruct (get_coil (configuration self) name) as [k|];
    unfold_monad; destruct w as [l p d]; simpl; run_outcome.
Qed.

Lemma write_register_raised_class :
  forall self name v w ex w',
    write_register self name v w = (Raised ex, w') ->
    write_failure_class (exn_class ex).
Proof.
  intros self name v w ex w'. unfold write_register.
  destruct (get_holding_register (configuration self) name) as [r|];
    [destruct (_build_register_payload r v) as [words|e] eqn:Hwords|];
    unfold_monad; rewrite ?Hwords; destruct w as [l p d]; simpl; run_outcome.
Qed.

Lemma write_register_returned :
  forall self name v w n w',
    write_register self name v w = (Returned n, w') ->
    match get_holding_register (configuration self) name with
    | Some _ => n = 1
    | None => n = 0 /\ w' = w
    end.
Proof.
  intros self name v w n w'. unfold write_register.
  destruct (get_holding_register (configuration self) name) as [r|];
    [destruct (_build_register_payload r v) as [words|e] eqn:Hwords|];
    unfold_monad; rewrite ?Hwords; destruct w as [l p d]; simpl; run_outcome.
Qed.

(** ** [write_command] *)

Lemma write_failure_class_known :
  forall c, write_failure_class c -> c <> UnknownCommandError.
Proof.
  intros c [H | [H | [H | H]]]; rewrite H; discriminate.
Qed.

Lemma write_command_sent_raised_class :
  forall self name v w ex w',
    write_command_sent self name v w = (Raised ex, w') ->
    write_failure_class (exn_class ex).
Proof.
  intros self name v w ex w'. unfold write_command_sent, bind, ret.
  destruct (get_coil (configuration self) name) as [k|].
  - destruct (write_coil self name (py_bool v) w) as [[n|e] w1] eqn:Hcoil.
    + destruct (get_holding_register (configuration self) name) as [r|].
      * destruct (write_register self name v w1) as [[m|e] w2] eqn:Hreg.
        -- discriminate.
        -- intros H. injection H as <- <-.
           exact (write_register_raised_class _ _ _ _ _ _ Hreg).
      * discriminate.
    + intros H. injection H as <- <-.
      exact (write_coil_raised_class _ _ _ _ _ _ Hcoil).
  - destruct (get_holding_register (configuration self) name) as [r|].
    + destruct (write_register self name v w) as [[m|e] w2] eqn:Hreg.
      * discriminate.
      * intros H. injection H as <- <-.
        exact (write_register_raised_class _ _ _ _ _ _ Hreg).
    + discriminate.
Qed.

Lemma write_command_sent_returned :
  forall self name v w n w',
    write_command_sent self name v w = (Returned n, w') ->
    n = matches (configuration self) name.
Proof.
  intros self name v w n w'. unfold write_command_sent, matches, bind, ret.
  destruct (get_coil (configuration self) name) as [k|] eqn:Hk.
  - destruct (write_coil self name (py_bool v) w) as [[c|e] w1] eqn:Hcoil;
      [|discriminate].
    apply write_coil_returned in Hcoil. rewrite Hk in Hcoil. subst c.
    destruct (get_holding_register (configuration self) name) as [r|] eqn:Hr.
    + destruct (write_register self name v w1) as [[m|e] w2] eqn:Hreg;
        [|discriminate].
      apply write_register_returned in Hreg. rewrite Hr in Hreg. subst m.
      intros H. injection H as <- <-. reflexivity.
    + intros H. injection H as <- <-. reflexivity.
  - destruct (get_holding_register (configuration self) name) as [r|] eqn:Hr.
    + destruct (write_register self name v w) as [[m|e] w2] eqn:Hreg;
        [|discriminate].
      apply write_register_returned in Hreg. rewrite Hr in Hreg. subst m.
      intros H. injection H as <- <-. reflexivity.
    + intros H. injection H as <- <-. reflexivity.
Qed.

Lemma write_command_sent_unmatched :
  forall self name v w,
    get_coil (configuration self) name = None ->
    get_holding_register (configuration self) name = None ->
    write_command_sent self name v w = (Returned 0, w).
Proof.
  intros self name v w Hk Hr. unfold write_command_sent, bind, ret.
  rewrite Hk, Hr. reflexivity.
Qed.

Lemma matches_zero :
  forall c name,
    matches c name = 0
    <-> get_coil c name = None /\ get_holding_register c name = None.
Proof.
  intros c name. unfold matches.
  destruct (get_coil c name), (get_holding_register c name); split;
    try (intros H; discriminate H); try (intros [H1 H2]; discriminate);
    auto.
Qed.

Lemma write_coil_unconfigured :
  forall self name v w,
    get_coil (configuration self) name = None ->
    write_coil self name v w = (Returned 0, w).
Proof.
  intros self name v w H. unfold write_coil. rewrite H. reflexivity.
Qed.

Lemma write_register_unconfigured :
  forall self name v w,
    get_holding_register (configuration self) name = None ->
    write_register self name v w = (Returned 0, w).
Proof.
  intros self name v w H. unfold write_register. rewrite H. reflexivity.
Qed.

Lemma write_command_refines_spec :
  forall self name v w,
    write_command self name v w = write_command_spec self name v w.
Proof.
  intros self name v w.
  unfold write_command, write_command_spec, write_command_sent, bind, ret.
  destruct (get_coil (configuration self) name) as [k|] eqn:Hk.
  - destruct (write_coil self name (py_bool v) w) as [[c|e] w1];
      [|reflexivity].
    destruct (get_holding_register (configuration self) name) as [r|] eqn:Hr.
    + destruct (write_register self name v w1) as [[m|e] w2]; reflexivity.
    + rewrite (write_register_unconfigured _ _ _ _ Hr).
      rewrite Z.add_0_r. reflexivity.
  - rewrite (write_coil_unconfigured _ _ _ _ Hk).
    destruct (get_holding_register (configuration self) name) as [r|] eqn:Hr.
    + destruct (write_register self name v w) as [[m|e] w2]; reflexivity.
    + rewrite (write_register_unconfigured _ _ _ _ Hr). reflexivity.
Qed.

(** C1: [write_command(name, value)] is the computation the specification
    describes: it attempts the coil write with [bool(value)] and the register
    write and sums their counts.  It raises [UnknownCommandError] if and only
    if that sum is computed and is 0, which is the case if and only if [name]
    is configured neither as a coil nor as a register; and then nothing is
    attempted on the transport and exactly one event, the exception itself, is
    published before the raise. *)
Theorem write_command_unknown_iff :
  forall (self : ModbusClient) (name : string) (v : PyValue) (w : World),
    write_command self name v w = write_command_spec self name v w
    /\ ((exists ex w',
            write_command self name v w = (Raised ex, w')
            /\ exn_class ex = UnknownCommandError)
        <-> (exists w', write_command_sent self name v w = (Returned 0, w')))
    /\ ((exists w', write_command_sent self name v w = (Returned 0, w'))
        <-> (get_coil (configuration self) name = None
             /\ get_holding_register (configuration self) name = None))
    /\ (get_coil (configuration self) name = None ->
        get_holding_register (configuration self) name = None ->
        write_command self name v w
        = (Raised (mkExn UnknownCommandError name),
           after_publishing [PublishExn (mkExn UnknownCommandError name)] w)).
Proof.
  intros self name v w. split; [apply write_command_refines_spec|].
  split; [|split].
  - split.
    + intros (ex & w' & Hrun & Hclass). unfold write_command, bind in Hrun.
      destruct (write_command_sent self name v w) as [[n|e] w1] eqn:Hsent.
      * destruct (n =? 0) eqn:Hn.
        -- apply Z.eqb_eq in Hn. subst n. exists w1. reflexivity.
        -- discriminate Hrun.
      * injection Hrun as <- <-.
        apply write_command_sent_raised_class in Hsent.
        apply write_failure_class_known in Hsent. contradiction.
    + intros (w' & Hsent). unfold write_command, bind. rewrite Hsent. simpl.
      eexists. eexists. split; reflexivity.
  - split.
    + intros (w' & Hsent). apply write_command_sent_returned in Hsent.
      apply matches_zero. symmetry. exact Hsent.
    + intros (Hk & Hr). exists w.
      apply write_command_sent_unmatched; assumption.
  - intros Hk Hr. unfold write_command, bind.
    rewrite (write_command_sent_unmatched _ _ v w Hk Hr). simpl.
    destruct w. reflexivity.
Qed.

Lemma write_command_unknown_iff_witness :
  write_command Sample.client "no_such_target" (VInt 5) empty_world
  = (Raised (mkExn UnknownCommandError "no_such_target"),
     after_publishing
       [PublishExn (mkExn UnknownCommandError "no_such_target")] empty_world).
Proof.
  apply (proj2 (proj2 (proj2 (write_command_unknown_iff Sample.client
                                "no_such_target" (VInt 5) empty_world)))).
  - reflexivity.
  - reflexivity.
Defined.

(** C3: when [name] is configured both as a coil and as a register,
    [write_command] never raises [UnknownCommandError]; and when both base
    addresses exist, the payload builder yields [words] and the transport
    carries out what it is asked, the coil write and the register write are
    both performed, in that order, and each adds 1 to [sent]. *)
Theorem write_command_dual_dispatch :
  forall (self : ModbusClient) (name : string) (v : PyValue) (w : World) k r,
    get_coil (configuration self) name = Some k ->
    get_holding_register (configuration self) name = Some r ->
    (forall ex w',
        write_command self name v w = (Raised ex, w') ->
        exn_class ex <> UnknownCommandError)
    /\
    (forall a rest a' rest' words,
        coil_address k = a :: rest ->
        register_address r = a' :: rest' ->
        _build_register_payload r v = Returned words ->
        transport_reliable (_client self) ->
        let w' :=
          after_ops [OpConnect; OpWriteCoil a (py_bool v) 1; OpClose;
                     OpConnect; OpWriteRegisters a' words 1; OpClose] w in
        write_command_sent self name v w = (Returned 2, w')
        /\ write_command self name v w = (Returned VNone, w')).
Proof.
  intros self name v w k r Hk Hr. split.
  - intros ex w' Hrun. unfold write_command, bind in Hrun.
    destruct (write_command_sent self name v w) as [[n|e] w1] eqn:Hsent.
    + apply write_command_sent_returned in Hsent.
      unfold matches in Hsent. rewrite Hk, Hr in Hsent. subst n.
      discriminate Hrun.
    + injection Hrun as <- <-.
      apply write_failure_class_known.
      exact (write_command_sent_raised_class _ _ _ _ _ _ Hsent).
  - intros a rest a' rest' words Ha Ha' Hwords Hrel w'.
    assert (Hsent : write_command_sent self name v w = (Returned 2, w')).
    { unfold write_command_sent, bind, ret. rewrite Hk, Hr.
      rewrite (write_coil_configured self name (py_bool v) w
                 k a rest Hk Ha Hrel).
      rewrite (write_register_configured self name v _
                 r a' rest' words Hr Ha' Hwords Hrel).
      subst w'. unfold after_ops. destruct w. same_world. }
    split; [exact Hsent|].
    unfold write_command, bind. rewrite Hsent. reflexivity.
Qed.

Lemma write_command_dual_dispatch_witness :
  write_command_sent Sample.client "valve" (VInt 3) empty_world
  = (Returned 2,
        after_ops [OpConnect; OpWriteCoil 7 true 1; OpClose;
                   OpConnect; OpWriteRegisters 20 [3] 1; OpClose]
          empty_world)
  /\ write_command Sample.client "valve" (VInt 3) empty_world
     = (Returned VNone,
        after_ops [OpConnect; OpWriteCoil 7 true 1; OpClose;
                   OpConnect; OpWriteRegisters 20 [3] 1; OpClose]
          empty_world).
Proof.
  pose proof (write_command_dual_dispatch Sample.client "valve" (VInt 3)
                empty_world
                {| coil_name := "valve"; coil_address := [7] |}
                {| register_name := "valve"; register_address := [20];
                   data_type := int16;
                   memory_order := Sample.big_natural |}
                eq_refl eq_refl) as [_ Hboth].
  apply (Hboth 7 [] 20 [] [3]).
  - reflexivity.
  - reflexivity.
  - vm_compute. reflexivity.
  - intros history op. reflexivity.
Defined.

(** C9: [write_command] has no return value: whenever it does not raise, the
    caller receives [None], although [sent] was computed and is positive (the
    number of targets configured under the name, 1 or 2). *)
Theorem write_command_returns_None :
  forall (self : ModbusClient) (name : string) (v : PyValue) (w : World)
         (result : PyValue) (w' : World),
    write_command self name v w = (Returned result, w') ->
    result = VNone
    /\ exists sent,
        write_command_sent self name v w = (Returned sent, w')
        /\ sent = matches (configuration self) name
        /\ 0 < sent.
Proof.
  intros self name v w result w' Hrun. unfold write_command, bind in Hrun.
  destruct (write_command_sent self name v w) as [[n|e] w1] eqn:Hsent;
    [|discriminate Hrun].
  destruct (n =? 0) eqn:Hn; [discriminate Hrun|].
  injection Hrun as <- <-. split; [reflexivity|].
  exists n. split; [reflexivity|].
  pose proof (write_command_sent_returned _ _ _ _ _ _ Hsent) as Hm.
  split; [exact Hm|].
  apply Z.eqb_neq in Hn. rewrite Hm in *. unfold matches in *.
  destruct (get_coil (configuration self) name),
    (get_holding_register (configuration self) name); lia.
Qed.

Lemma write_command_returns_None_witness :
  (VNone = VNone
   /\ exists sent,
       write_command_sent Sample.client "pump_1" (VBool true) empty_world
       = (Returned sent,
          after_ops [OpConnect; OpWriteCoil 10 true 1; OpClose] empty_world)
       /\ sent = matches (configuration Sample.client) "pump_1"
       /\ 0 < sent)
  /\ matches (configuration Sample.client) "pump_1" = 1.
Proof.
  split.
  - apply (write_command_returns_None Sample.client "pump_1" (VBool true)
             empty_world VNone
             (after_ops [OpConnect; OpWriteCoil 10 true 1; OpClose]
                empty_world)).
    reflexivity.
  - reflexivity.
Defined.

(** ** Words produced by the codec *)

Lemma lor_word :
  forall a b,
    0 <= a < 65536 -> 0 <= b < 65536 -> 0 <= Z.lor a b < 65536.
Proof.
  intros a b Ha Hb.
  assert (Hnonneg : 0 <= Z.lor a b) by (apply Z.lor_nonneg; lia).
  split; [exact Hnonneg|].
  destruct (Z.eq_dec (Z.lor a b) 0) as [Hz|Hnz]; [lia|].
  change 65536 with (2 ^ 16).
  apply Z.log2_lt_pow2; [lia|].
  rewrite Z.log2_lor by lia.
  apply Z.max_lub_lt.
  - destruct (Z.eq_dec a 0) as [->|]; [reflexivity|].
    apply Z.log2_lt_pow2; simpl; lia.
  - destruct (Z.eq_dec b 0) as [->|]; [reflexivity|].
    apply Z.log2_lt_pow2; simpl; lia.
Qed.

Lemma land_255_byte : forall x, is_byte (Z.land x 255).
Proof.
  intros x. unfold is_byte. change 255 with (Z.ones 8).
  rewrite Z.land_ones by lia. apply Z.mod_pos_bound. reflexivity.
Qed.

Lemma big_endian_bytes_are_bytes :
  forall n u, Forall is_byte (PayloadBuilder.big_endian_bytes n u).
Proof.
  induction n as [|n IH]; intros u; simpl; constructor.
  - apply land_255_byte.
  - apply IH.
Qed.

Lemma Returned_inj :
  forall (A : Type) (a b : A), Returned a = Returned b -> a = b.
Proof.
  intros A a b H. injection H as ->. reflexivity.
Qed.

Lemma big_endian_bytes_length :
  forall n u, List.length (PayloadBuilder.big_endian_bytes n u) = n.
Proof.
  induction n as [|n IH]; intros u; simpl; [reflexivity|].
  rewrite IH. reflexivity.
Qed.

Lemma integer_bytes_are_bytes :
  forall n lo hi v bs,
    PayloadBuilder.integer_bytes n lo hi v = Returned bs ->
    Forall is_byte bs /\ List.length bs = n.
Proof.
  intros n lo hi v bs. unfold PayloadBuilder.integer_bytes.
  destruct v as [| |z| |]; try discriminate.
  destruct ((lo <=? z) && (z <=? hi)); [|discriminate].
  intros H. injection H as <-.
  split; [apply big_endian_bytes_are_bytes|apply big_endian_bytes_length].
Qed.

Lemma natural_bytes_are_bytes :
  forall d v bs,
    PayloadBuilder.natural_bytes d v = Returned bs ->
    Forall is_byte bs /\ List.length bs = (2 * PayloadBuilder.width d)%nat.
Proof.
  intros d v bs. unfold PayloadBuilder.natural_bytes.
  destruct d as [| | | | |name].
  - apply integer_bytes_are_bytes.
  - apply integer_bytes_are_bytes.
  - apply integer_bytes_are_bytes.
  - apply integer_bytes_are_bytes.
  - destruct (PayloadBuilder.float32_of_value v) as [f|ex]; unfold obind;
      [|discriminate].
    intros H. apply Returned_inj in H. subst bs.
    split; [apply (big_endian_bytes_are_bytes 4)|].
    exact (big_endian_bytes_length 4 _).
  - intros H. discriminate H.
Qed.

Lemma shiftl_byte_is_word :
  forall hi lo, is_byte hi -> is_byte lo -> is_word16 (Z.lor (Z.shiftl hi 8) lo).
Proof.
  intros hi lo Hhi Hlo. unfold is_byte in *. unfold is_word16.
  apply lor_word; [|lia].
  rewrite Z.shiftl_mul_pow2 by lia. change (2 ^ 8) with 256. lia.
Qed.

Lemma words_of_bytes_are_words :
  forall bs,
    Forall is_byte bs -> Forall is_word16 (PayloadBuilder.words_of_bytes bs).
Proof.
  assert (Hboth : forall bs,
             Forall is_byte bs ->
             Forall is_word16 (PayloadBuilder.words_of_bytes bs)
             /\ forall b,
                 is_byte b ->
                 Forall is_word16 (PayloadBuilder.words_of_bytes (b :: bs))).
  { induction bs as [|lo rest IH]; intros Hbs.
    - split; intros; constructor.
    - inversion Hbs as [|? ? Hlo Hrest]; subst.
      destruct (IH Hrest) as [Hwords _]. split.
      + destruct (IH Hrest) as [_ Hcons]. apply Hcons. exact Hlo.
      + intros hi Hhi. cbn [PayloadBuilder.words_of_bytes].
        constructor; [apply shiftl_byte_is_word; assumption|exact Hwords]. }
  intros bs Hbs. apply Hboth. exact Hbs.
Qed.

Lemma swap_bytes_is_word :
  forall w, is_word16 w -> is_word16 (PayloadBuilder.swap_bytes w).
Proof.
  intros w Hw. unfold is_word16 in *. unfold PayloadBuilder.swap_bytes.
  apply lor_word.
  - pose proof (land_255_byte w) as Hb. unfold is_byte in Hb.
    rewrite Z.shiftl_mul_pow2 by lia. change (2 ^ 8) with 256. lia.
  - rewrite Z.shiftr_div_pow2 by lia. change (2 ^ 8) with 256.
    split; [apply Z.div_pos; lia|].
    apply Z.div_lt_upper_bound; lia.
Qed.

(** Every payload the codec returns is a sequence of unsigned 16-bit words,
    one word for the 16-bit types and two for the 32-bit types. *)
Lemma encode_words :
  forall d m v ws,
    PayloadBuilder.encode d m v = Returned ws ->
    Forall is_word16 ws /\ List.length ws = PayloadBuilder.width d.
Proof.
  intros d m v ws. unfold PayloadBuilder.encode.
  destruct (PayloadBuilder.natural_bytes d v) as [bs|ex] eqn:Hbs;
    unfold obind; [|intros H; discriminate H].
  intros H. apply Returned_inj in H. subst ws.
  destruct (natural_bytes_are_bytes d v bs Hbs) as [Hbytes Hlen].
  pose proof (words_of_bytes_are_words bs Hbytes) as Hwords.
  split.
  - assert (Hswapped : Forall is_word16
                         (PayloadBuilder.apply_byte_order (byte_order m)
                            (PayloadBuilder.words_of_bytes bs))).
    { destruct (byte_order m); simpl; [exact Hwords|].
      apply Forall_map. eapply Forall_impl; [|exact Hwords].
      intros w Hw. apply swap_bytes_is_word. exact Hw. }
    destruct (word_order m); simpl; [exact Hswapped|].
    apply Forall_rev. exact Hswapped.
  - assert (Hcount : List.length (PayloadBuilder.words_of_bytes bs)
                     = PayloadBuilder.width d).
    { destruct d; simpl in Hlen;
        repeat (destruct bs as [|? bs]; simpl in Hlen; try discriminate Hlen);
        reflexivity. }
    destruct (word_order m), (byte_order m); simpl;
      rewrite ?length_rev, ?length_map; exact Hcount.
Qed.

(** ** Worked examples of the codec *)

(** C4: the codec runs the four steps in order; swapping the word order
    reverses the word sequence of the natural order; and on the worked
    examples: [int16], big-endian, natural, -1 gives [[0xFFFF]]; [float32],
    big-endian, natural, 1.0 has bit pattern [0x3F800000] and gives
    [[0x3F80; 0x0000]], and with swapped word order [[0x0000; 0x3F80]]. *)
Theorem payload_codec_examples :
  (forall d m v,
      PayloadBuilder.encode d m v
      = obind (PayloadBuilder.natural_bytes d v)
          (fun bs =>
             Returned
               (PayloadBuilder.apply_word_order (word_order m)
                  (PayloadBuilder.apply_byte_order (byte_order m)
                     (PayloadBuilder.words_of_bytes bs)))))
  /\ (forall d b v,
         PayloadBuilder.encode d
           {| byte_order := b; word_order := SwappedWords |} v
         = obind
             (PayloadBuilder.encode d
                {| byte_order := b; word_order := NaturalWords |} v)
             (fun ws => Returned (rev ws)))
  /\ PayloadBuilder.encode int16 Sample.big_natural (VInt (-1))
     = Returned [0xFFFF]
  /\ PayloadBuilder.binary32_bits (PayloadBuilder.to_binary32 Sample.one)
     = 0x3F800000
  /\ PayloadBuilder.encode float32 Sample.big_natural (VFloat Sample.one)
     = Returned [0x3F80; 0x0000]
  /\ PayloadBuilder.encode float32 Sample.big_swapped (VFloat Sample.one)
     = Returned [0x0000; 0x3F80].
Proof.
  split; [reflexivity|]. split.
  - intros d b v. unfold PayloadBuilder.encode.
    destruct (PayloadBuilder.natural_bytes d v); reflexivity.
  - repeat split; vm_compute; reflexivity.
Qed.

(** ** Batches *)

Lemma first_failure :
  forall self batch,
    Exists (item_fails self) batch ->
    exists pre bad post ex,
      batch = pre ++ bad :: post
      /\ Forall (item_passes self) pre
      /\ prepare self bad = Raised ex.
Proof.
  intros self batch. induction batch as [|d rest IH]; intros Hex.
  - inversion Hex.
  - destruct (prepare self d) as [m|ex] eqn:Hd.
    + assert (Hrest : Exists (item_fails self) rest).
      { inversion Hex as [? ? [e He]|]; subst; [congruence|assumption]. }
      destruct (IH Hrest) as (pre & bad & post & ex & Hsplit & Hpre & Hbad).
      exists (d :: pre), bad, post, ex. split; [|split].
      * rewrite Hsplit. reflexivity.
      * constructor; [exists m; exact Hd|exact Hpre].
      * exact Hbad.
    + exists [], d, rest, ex. split; [reflexivity|]. split; [constructor|].
      exact Hd.
Qed.

Lemma prepare_all_stops :
  forall self pre bad ex,
    Forall (item_passes self) pre ->
    prepare self bad = Raised ex ->
    forall post acc, prepare_all self (pre ++ bad :: post) acc = Raised ex.
Proof.
  intros self pre bad ex Hpre Hbad post.
  induction Hpre as [|d pre [m Hd] _ IH]; intros acc; simpl.
  - rewrite Hbad. reflexivity.
  - rewrite Hd. simpl. apply IH.
Qed.

(** Line 69 is the first statement of the outer [try]: when the topic cannot
    be read, the [except] clause of line 99 has no [msg_topic] to format. *)
Lemma on_message_topic_unread :
  forall self message ex w,
    topic message = Raised ex ->
    _on_message self message w
    = (Raised (mkExn UnboundLocalError
                 "local variable msg_topic referenced before assignment"), w).
Proof.
  intros self message ex w Htopic. unfold _on_message. rewrite Htopic.
  reflexivity.
Qed.

Lemma on_message_topic_read :
  forall self message msg_topic,
    topic message = Returned msg_topic ->
    _on_message self message
    = try_except_Exception (on_message_body self message)
        (fun ex => publish (PublishCategory UNHANDLED (py_str ex))).
Proof.
  intros self message msg_topic Htopic. unfold _on_message. rewrite Htopic.
  reflexivity.
Qed.

Lemma on_message_reports :
  forall self message msg_topic msg_str batch ex w,
    topic message = Returned msg_topic ->
    _decode_message message = Returned msg_str ->
    CommandMessageList_read (message_api self) msg_str = Returned batch ->
    prepare_all self batch [] = Raised ex ->
    _on_message self message w = (Returned tt, after_publishing [report ex] w).
Proof.
  intros self message msg_topic msg_str batch ex w Htopic Hdecode Hread Hall.
  rewrite (on_message_topic_read self message msg_topic Htopic).
  unfold on_message_body, on_message_read, on_message_parse.
  unfold_monad. rewrite Hdecode, Hread, Hall. unfold report.
  destruct (isinstance ex InvalidMessageError);
    [|destruct (isinstance ex UnknownCommandError)]; destruct w; reflexivity.
Qed.

(** C2: when a batch that decodes and parses contains an item on which the
    construction, validation or transformation of the command raises, the
    handler returns without invoking any callback and without anything being
    attempted on the transport.  The run is decided by the first such item:
    the items before it were prepared but are dropped, and whatever follows
    it does not change the failure; the only effect, when the topic of the
    message could be read at line 69, is one published event for that item's
    exception. *)
Theorem failing_batch_dispatches_nothing :
  forall (self : MqttReader) (message : MQTTMessage) (msg_str : string)
         (batch : list MsgDict) (w : World),
    _decode_message message = Returned msg_str ->
    CommandMessageList_read (message_api self) msg_str = Returned batch ->
    Exists (item_fails self) batch ->
    dispatched (snd (_on_message self message w)) = dispatched w
    /\ modbus_log (snd (_on_message self message w)) = modbus_log w
    /\ exists pre bad post ex,
        batch = pre ++ bad :: post
        /\ Forall (item_passes self) pre
        /\ prepare self bad = Raised ex
        /\ (forall post' acc,
               prepare_all self (pre ++ bad :: post') acc = Raised ex)
        /\ (forall msg_topic,
               topic message = Returned msg_topic ->
               _on_message self message w
               = (Returned tt, after_publishing [report ex] w)).
Proof.
  intros self message msg_str batch w Hdecode Hread Hfails.
  destruct (first_failure self batch Hfails)
    as (pre & bad & post & ex & Hsplit & Hpre & Hbad).
  pose proof (prepare_all_stops self pre bad ex Hpre Hbad) as Hstop.
  assert (Hrun : forall msg_topic,
             topic message = Returned msg_topic ->
             _on_message self message w
             = (Returned tt, after_publishing [report ex] w)).
  { intros msg_topic Htopic.
    apply (on_message_reports self message msg_topic msg_str batch ex w
             Htopic Hdecode Hread).
    rewrite Hsplit. apply Hstop. }
  assert (Hquiet : dispatched (snd (_on_message self message w))
                   = dispatched w
                   /\ modbus_log (snd (_on_message self message w))
                      = modbus_log w).
  { destruct (topic message) as [msg_topic|unread] eqn:Htopic.
    - rewrite (Hrun msg_topic eq_refl). split; reflexivity.
    - rewrite (on_message_topic_unread self message unread w Htopic).
      split; reflexivity. }
  destruct Hquiet as [Hd Hl]. split; [exact Hd|]. split; [exact Hl|].
  exists pre, bad, post, ex.
  split; [exact Hsplit|]. split; [exact Hpre|]. split; [exact Hbad|].
  split; [exact Hstop|exact Hrun].
Qed.

Lemma failing_batch_dispatches_nothing_witness :
  dispatched (snd (_on_message Sample.reader Sample.message empty_world))
  = dispatched empty_world
  /\ modbus_log (snd (_on_message Sample.reader Sample.message empty_world))
     = modbus_log empty_world.
Proof.
  pose proof (failing_batch_dispatches_nothing Sample.reader Sample.message
                Sample.doc Sample.batch empty_world) as H.
  assert (Hdecode : _decode_message Sample.message = Returned Sample.doc)
    by (vm_compute; reflexivity).
  assert (Hread : CommandMessageList_read (message_api Sample.reader)
                    Sample.doc = Returned Sample.batch)
    by (vm_compute; reflexivity).
  assert (Hfails : Exists (item_fails Sample.reader) Sample.batch).
  { apply Exists_cons_tl. apply Exists_cons_hd.
    exists (mkExn UnknownCommandError "bogus"). vm_compute. reflexivity. }
  destruct (H Hdecode Hread Hfails) as (Hd & Hl & _).
  split; assumption.
Defined.

(** The first item of the sample batch alone is dispatched: what keeps it from
    the callbacks in the sample batch is the second item. *)
Example valid_batch_is_dispatched :
  _on_message Sample.good_reader Sample.good_message empty_world
  = (Returned tt,
     {| modbus_log :=
          [OpConnect; OpWriteCoil 10 true 1; OpClose;
           OpConnect; OpWriteRegisters 100 [0x3F80; 0] 1; OpClose];
        published := [];
        dispatched :=
          [(0%nat,
            {| action := "pump_1"; value := VBool true;
               resolved_target :=
                 Some (TargetCoil
                         {| coil_name := "pump_1"; coil_address := [10] |});
               typed_value := Some (VBool true) |});
           (0%nat,
            {| action := "setpoint_temp"; value := VFloat Sample.one;
               resolved_target :=
                 Some (TargetRegister
                         {| register_name := "setpoint_temp";
                            register_address := [100];
                            data_type := float32;
                            memory_order := Sample.big_natural |});
               typed_value := Some (VFloat Sample.one) |})] |}).
Proof. vm_compute. reflexivity. Qed.

Example sample_batch_is_reported :
  _on_message Sample.reader Sample.message empty_world
  = (Returned tt,
     after_publishing [PublishCategory UNKNOWN_COMMAND "bogus"] empty_world).
Proof. vm_compute. reflexivity. Qed.

(** ** The message-processing boundary *)

(** While the topic of the message can be read, the outer [try] is the
    boundary its comment describes: the handler returns normally on every
    message, whatever the reader, the validation, the transformation and the
    callbacks do.  An exception that leaves the body of the outer [try], in
    particular any exception raised by a callback, is published as
    [UNHANDLED]; and so is any exception raised while the batch is decoded,
    parsed and prepared that is neither an [InvalidMessageError] nor an
    [UnknownCommandError]. *)
Lemma on_message_returns_when_topic_reads :
  forall (self : MqttReader) (message : MQTTMessage) (msg_topic : string)
         (w : World),
    topic message = Returned msg_topic ->
    fst (_on_message self message w) = Returned tt
    /\ (forall ex w1,
           on_message_body self message w = (Raised ex, w1) ->
           _on_message self message w
           = (Returned tt,
              after_publishing [PublishCategory UNHANDLED (py_str ex)] w1))
    /\ (forall ex w1,
           on_message_parse self message w = (Raised ex, w1) ->
           isinstance ex InvalidMessageError = false ->
           isinstance ex UnknownCommandError = false ->
           _on_message self message w
           = (Returned tt,
              after_publishing [PublishCategory UNHANDLED (py_str ex)] w1)).
Proof.
  intros self message msg_topic w Htopic.
  rewrite (on_message_topic_read self message msg_topic Htopic).
  assert (Hbody : forall ex w1,
             on_message_body self message w = (Raised ex, w1) ->
             try_except_Exception (on_message_body self message)
               (fun ex => publish (PublishCategory UNHANDLED (py_str ex))) w
             = (Returned tt,
                after_publishing [PublishCategory UNHANDLED (py_str ex)] w1)).
  { intros ex w1 Hrun. unfold try_except_Exception.
    rewrite Hrun. reflexivity. }
  split; [|split].
  - unfold try_except_Exception.
    destruct (on_message_body self message w) as [[[]|ex] w1]; reflexivity.
  - exact Hbody.
  - intros ex w1 Hparse Hinvalid Hunknown. apply Hbody.
    unfold on_message_body, on_message_read, try_except2, bind.
    rewrite Hparse, Hinvalid, Hunknown. reflexivity.
Qed.

(** A payload that is not UTF-8, on a topic that is, is reported as
    unhandled. *)
Example undecodable_payload_is_unhandled :
  _on_message Sample.reader
    {| _topic := list_byte_of_string "commands"; payload := [Byte.xff] |}
    empty_world
  = (Returned tt,
     after_publishing [PublishCategory UNHANDLED "invalid utf-8"] empty_world).
Proof. vm_compute. reflexivity. Qed.

(** C8, where the code departs from it: [message.topic] is read at line 69,
    inside the outer [try], and the [except Exception] clause of line 99
    formats [msg_topic] at line 100 before it publishes.  On a message whose
    topic cannot be read the name is unbound there, so the clause raises
    [UnboundLocalError] itself: the handler does not return, the failure is
    not contained, and nothing is published, neither as [UNHANDLED] nor
    otherwise.  Nothing is dispatched or written either; the world is the one
    the handler was entered with. *)
Theorem unreadable_topic_escapes_on_message :
  forall (self : MqttReader) (message : MQTTMessage) (ex : Exn) (w : World),
    topic message = Raised ex ->
    (exists escaped,
        _on_message self message w = (Raised escaped, w)
        /\ exn_class escaped = UnboundLocalError)
    /\ fst (_on_message self message w) <> Returned tt
    /\ published (snd (_on_message self message w)) = published w
    /\ ~ (exists w1,
            _on_message self message w
            = (Returned tt,
               after_publishing [PublishCategory UNHANDLED (py_str ex)] w1)).
Proof.
  intros self message ex w Htopic.
  rewrite (on_message_topic_unread self message ex w Htopic). simpl.
  split; [|split; [|split]].
  - eexists. split; reflexivity.
  - discriminate.
  - reflexivity.
  - intros [w1 H]. discriminate H.
Qed.

(** A well-formed batch on a topic whose bytes are not UTF-8: the handler
    raises and the broker's client is handed the exception. *)
Lemma unreadable_topic_escapes_on_message_witness :
  fst (_on_message Sample.good_reader Scenario.unreadable_topic empty_world)
  <> Returned tt
  /\ published
       (snd (_on_message Sample.good_reader Scenario.unreadable_topic
               empty_world)) = [].
Proof.
  pose proof (unreadable_topic_escapes_on_message Sample.good_reader
                Scenario.unreadable_topic
                (mkExn UnicodeDecodeError "invalid utf-8") empty_world) as H.
  assert (Htopic : topic Scenario.unreadable_topic
                   = Raised (mkExn UnicodeDecodeError "invalid utf-8"))
    by (vm_compute; reflexivity).
  destruct (H Htopic) as (_ & Hraised & Hquiet & _).
  split; assumption.
Defined.

(** ** Range checks at the register write *)

(** 40000 fits [uint16] and is written; against an [int16] register the
    payload builder fails, the failure is published and the write raises
    [InvalidMessageError] before anything is attempted on the transport. *)
Example write_register_uint16_40000 :
  write_register Sample.client "counter" (VInt 40000) empty_world
  = (Returned 1,
     after_ops [OpConnect; OpWriteRegisters 30 [40000] 1; OpClose]
       empty_world).
Proof. vm_compute. reflexivity. Qed.

Example write_register_int16_40000 :
  write_register Sample.client "valve" (VInt 40000) empty_world
  = (Raised (mkExn InvalidMessageError "value does not fit the declared width"),
     after_publishing
       [PublishExn
          (mkExn EncodingError "value does not fit the declared width")]
       empty_world).
Proof. vm_compute. reflexivity. Qed.

(** * Further properties of [ModbusClient] *)

Ltac run_cases :=
  repeat match goal with
    | |- context [match ?t ?h ?op with Some _ => _ | None => _ end] =>
        let E := fresh "E" in destruct (t h op) as [[?|?]|] eqn:E; simpl
    | |- context [match ?l with [] => _ | _ :: _ => _ end] =>
        destruct l; simpl
    end.

Lemma write_coil_publishes :
  forall self name v w, publishes_what_it_raises (write_coil self name v) w.
Proof.
  intros self name v w. unfold publishes_what_it_raises, write_coil.
  destruct (get_coil (configuration self) name) as [k|];
    unfold_monad; destruct w as [l p d]; simpl; run_cases;
    try reflexivity; eexists; split; reflexivity.
Qed.

Lemma write_coils_publishes :
  forall self name vs w, publishes_what_it_raises (write_coils self name vs) w.
Proof.
  intros self name vs w. unfold publishes_what_it_raises, write_coils.
  destruct (get_coil (configuration self) name) as [k|];
    unfold_monad; destruct w as [l p d]; simpl; run_cases;
    try reflexivity; eexists; split; reflexivity.
Qed.

Lemma write_register_publishes :
  forall self name v w,
    publishes_what_it_raises (write_register self name v) w.
Proof.
  intros self name v w. unfold publishes_what_it_raises, write_register.
  destruct (get_holding_register (configuration self) name) as [r|];
    [destruct (_build_register_payload r v) as [words|ex] eqn:Hwords|];
    unfold_monad; rewrite ?Hwords; destruct w as [l p d]; simpl; run_cases;
    try reflexivity; eexists; split; reflexivity.
Qed.

Lemma write_command_publishes :
  forall self name v w,
    publishes_what_it_raises (write_command self name v) w.
Proof.
  intros self name v w.
  unfold publishes_what_it_raises, write_command, write_command_sent, bind, ret.
  destruct (get_coil (configuration self) name) as [k|] eqn:Hk.
  - pose proof (write_coil_publishes self name (py_bool v) w) as Hc.
    unfold publishes_what_it_raises in Hc.
    destruct (write_coil self name (py_bool v) w) as [[c|e] w1] eqn:Hcoil;
      [|exact Hc].
    apply write_coil_returned in Hcoil. rewrite Hk in Hcoil. subst c.
    destruct (get_holding_register (configuration self) name) as [r|] eqn:Hr.
    + pose proof (write_register_publishes self name v w1) as Hg.
      unfold publishes_what_it_raises in Hg.
      destruct (write_register self name v w1) as [[m|e] w2] eqn:Hreg.
      * apply write_register_returned in Hreg. rewrite Hr in Hreg. subst m.
        simpl. congruence.
      * rewrite Hc in Hg. exact Hg.
    + simpl. exact Hc.
  - destruct (get_holding_register (configuration self) name) as [r|] eqn:Hr.
    + pose proof (write_register_publishes self name v w) as Hg.
      unfold publishes_what_it_raises in Hg.
      destruct (write_register self name v w) as [[m|e] w2] eqn:Hreg;
        [|exact Hg].
      apply write_register_returned in Hreg. rewrite Hr in Hreg. subst m.
      simpl. exact Hg.
    + simpl. eexists. split; reflexivity.
Qed.

(** X1: a call of [write_coil], [write_coils], [write_register] or
    [write_command] publishes nothing when it returns; when it raises one of
    the application errors ([ModbusClientError], [InvalidMessageError],
    [UnknownCommandError]) it has published exactly one exception, whose
    message the raised error carries; and an exception of any other class (a
    missing base address, a failure of the transport that is not a
    [ModbusException]) leaves the call without anything being published. *)
Theorem writes_publish_what_they_raise :
  forall (self : ModbusClient) (name : string) (w : World),
    (forall v, publishes_what_it_raises (write_coil self name v) w)
    /\ (forall vs, publishes_what_it_raises (write_coils self name vs) w)
    /\ (forall v, publishes_what_it_raises (write_register self name v) w)
    /\ (forall v, publishes_what_it_raises (write_command self name v) w).
Proof.
  intros self name w. split; [|split; [|split]].
  - intros v. apply write_coil_publishes.
  - intros vs. apply write_coils_publishes.
  - intros v. apply write_register_publishes.
  - intros v. apply write_command_publishes.
Qed.

(** X2: [write_coils(name, values)] returns 0 and does nothing when no coil is
    configured under [name].  When one is configured, every run that returns
    has connected, issued exactly one multi-coil write of [values] at the base
    address [address[0]], closed, and returned [len(values)]; and on a
    transport that carries out what it is asked, with base address [a], the
    run does return. *)
Theorem write_coils_count :
  forall (self : ModbusClient) (name : string) (vs : list bool) (w : World),
    (get_coil (configuration self) name = None ->
     write_coils self name vs w = (Returned 0, w))
    /\
    (forall k n w',
        get_coil (configuration self) name = Some k ->
        write_coils self name vs w = (Returned n, w') ->
        n = Z.of_nat (List.length vs)
        /\ exists a,
            index0 (coil_address k) = Returned a
            /\ w' = after_ops [OpConnect; OpWriteCoils a vs; OpClose] w)
    /\
    (forall k a rest,
        get_coil (configuration self) name = Some k ->
        coil_address k = a :: rest ->
        transport_reliable (_client self) ->
        write_coils self name vs w
        = (Returned (Z.of_nat (List.length vs)),
           after_ops [OpConnect; OpWriteCoils a vs; OpClose] w)).
Proof.
  intros self name vs w. split; [|split].
  - intros Hnone. unfold write_coils. rewrite Hnone. reflexivity.
  - intros k n w' Hk Hrun.
    exact (write_coils_returned_log self name vs w k n w' Hk Hrun).
  - intros k a rest Hk Ha Hrel. unfold write_coils. rewrite Hk.
    unfold_monad. rewrite Ha. rewrite !Hrel. destruct w. same_world.
Qed.

Lemma write_coils_count_witness :
  write_coils Sample.client "pump_1" [true; false; true] empty_world
  = (Returned 3,
     after_ops [OpConnect; OpWriteCoils 10 [true; false; true]; OpClose]
       empty_world).
Proof.
  apply (proj2 (proj2 (write_coils_count Sample.client "pump_1"
                         [true; false; true] empty_world))
           {| coil_name := "pump_1"; coil_address := [10] |} 10 []).
  - reflexivity.
  - reflexivity.
  - intros history op. reflexivity.
Defined.

(** X3: when the payload builder fails on the value, [write_register]
    publishes the builder's exception, raises [InvalidMessageError] with its
    message, and attempts nothing on the transport, not even a connection. *)
Theorem write_register_rejects_payload :
  forall (self : ModbusClient) (name : string) (v : PyValue) (w : World)
         (r : HoldingRegister) (ex : Exn),
    get_holding_register (configuration self) name = Some r ->
    _build_register_payload r v = Raised ex ->
    write_register self name v w
    = (Raised (mkExn InvalidMessageError (py_str ex)),
       after_publishing [PublishExn ex] w).
Proof.
  intros self name v w r ex Hr Hfail. unfold write_register. rewrite Hr.
  unfold_monad. rewrite Hfail. destruct w. reflexivity.
Qed.

Lemma write_register_rejects_payload_witness :
  write_register Sample.client "valve" (VStr "on") empty_world
  = (Raised (mkExn InvalidMessageError "value is not an integer"),
     after_publishing
       [PublishExn (mkExn EncodingError "value is not an integer")]
       empty_world).
Proof.
  apply (write_register_rejects_payload Sample.client "valve" (VStr "on")
           empty_world
           {| register_name := "valve"; register_address := [20];
              data_type := int16; memory_order := Sample.big_natural |}
           (mkExn EncodingError "value is not an integer")).
  - reflexivity.
  - reflexivity.
Defined.

(** ** The order of the operations on the transport *)

Ltac show_prefix :=
  eexists; eexists; split;
  [ simpl; rewrite <- ?app_assoc; simpl; reflexivity
  | reflexivity ].

Lemma write_coil_attempts :
  forall self name v w k a rest,
    get_coil (configuration self) name = Some k ->
    coil_address k = a :: rest ->
    attempts_prefix_of (write_coil self name v) w
      [OpConnect; OpWriteCoil a v 1; OpClose].
Proof.
  intros self name v w k a rest Hk Ha.
  unfold attempts_prefix_of, write_coil. rewrite Hk. unfold_monad.
  rewrite Ha. destruct w as [l p d]. simpl. run_cases; show_prefix.
Qed.

Lemma write_coils_attempts :
  forall self name vs w k a rest,
    get_coil (configuration self) name = Some k ->
    coil_address k = a :: rest ->
    attempts_prefix_of (write_coils self name vs) w
      [OpConnect; OpWriteCoils a vs; OpClose].
Proof.
  intros self name vs w k a rest Hk Ha.
  unfold attempts_prefix_of, write_coils. rewrite Hk. unfold_monad.
  rewrite Ha. destruct w as [l p d]. simpl. run_cases; show_prefix.
Qed.

Lemma write_register_attempts :
  forall self name v w r a rest words,
    get_holding_register (configuration self) name = Some r ->
    register_address r = a :: rest ->
    _build_register_payload r v = Returned words ->
    attempts_prefix_of (write_register self name v) w
      [OpConnect; OpWriteRegisters a words 1; OpClose].
Proof.
  intros self name v w r a rest words Hr Ha Hwords.
  unfold attempts_prefix_of, write_register. rewrite Hr. unfold_monad.
  rewrite Hwords, Ha. destruct w as [l p d]. simpl. run_cases; show_prefix.
Qed.

(** X4: whatever the transport does, a write on a configured target attempts
    an initial segment of: connect, one write at the base address (for a
    register, of the words the payload builder returned), close.  So a call
    never writes twice, never writes before connecting and never closes
    before writing. *)
Theorem writes_attempt_in_order :
  forall (self : ModbusClient) (name : string) (w : World),
    (forall v k a rest,
        get_coil (configuration self) name = Some k ->
        coil_address k = a :: rest ->
        attempts_prefix_of (write_coil self name v) w
          [OpConnect; OpWriteCoil a v 1; OpClose])
    /\ (forall vs k a rest,
           get_coil (configuration self) name = Some k ->
           coil_address k = a :: rest ->
           attempts_prefix_of (write_coils self name vs) w
             [OpConnect; OpWriteCoils a vs; OpClose])
    /\ (forall v r a rest words,
           get_holding_register (configuration self) name = Some r ->
           register_address r = a :: rest ->
           _build_register_payload r v = Returned words ->
           attempts_prefix_of (write_register self name v) w
             [OpConnect; OpWriteRegisters a words 1; OpClose]).
Proof.
  intros self name w. split; [|split].
  - intros v k a rest. apply write_coil_attempts.
  - intros vs k a rest. apply write_coils_attempts.
  - intros v r a rest words. apply write_register_attempts.
Qed.

Lemma writes_attempt_in_order_witness :
  attempts_prefix_of (write_coil Sample.rejected_client "pump_1" true)
    empty_world [OpConnect; OpWriteCoil 10 true 1; OpClose]
  /\ modbus_log
       (snd (write_coil Sample.rejected_client "pump_1" true empty_world))
     = [OpConnect; OpWriteCoil 10 true 1].
Proof.
  split.
  - apply (proj1 (writes_attempt_in_order Sample.rejected_client "pump_1"
                    empty_world)
             true {| coil_name := "pump_1"; coil_address := [10] |} 10 []).
    + reflexivity.
    + reflexivity.
  - reflexivity.
Defined.

(** ** Connections left open *)

Ltac close_was_last :=
  intros ? ? ? Hrun Hlog Hin;
  first
    [ discriminate Hrun
    | injection Hrun as <- <-; simpl in Hlog;
      rewrite <- ?app_assoc in Hlog; simpl in Hlog;
      first
        [ (* nothing was attempted *)
          rewrite <- (app_nil_r (A:=TransportOp)) in Hlog at 1;
          apply app_inv_head in Hlog; subst; contradiction
        | apply app_inv_head in Hlog; subst; simpl in Hin;
          first
            [ exfalso; intuition discriminate
            | match goal with
              | E : _ _ OpClose = Some _ |- _ =>
                  rewrite <- ?app_assoc in E; simpl in E;
                  match type of E with
                  | _ (_ ++ ?pre) OpClose = Some ?f =>
                      exists pre, f; split; [reflexivity|exact E]
                  end
              end ] ] ].

Lemma write_coil_leaves_open :
  forall self name v w,
    leaves_open_on_failure (write_coil self name v) (_client self) w.
Proof.
  intros self name v w. unfold leaves_open_on_failure, write_coil.
  destruct (get_coil (configuration self) name) as [k|];
    unfold_monad; destruct w as [l p d]; simpl; run_cases; close_was_last.
Qed.

Lemma write_coils_leaves_open :
  forall self name vs w,
    leaves_open_on_failure (write_coils self name vs) (_client self) w.
Proof.
  intros self name vs w. unfold leaves_open_on_failure, write_coils.
  destruct (get_coil (configuration self) name) as [k|];
    unfold_monad; destruct w as [l p d]; simpl; run_cases; close_was_last.
Qed.

Lemma write_register_leaves_open :
  forall self name v w,
    leaves_open_on_failure (write_register self name v) (_client self) w.
Proof.
  intros self name v w. unfold leaves_open_on_failure, write_register.
  destruct (get_holding_register (configuration self) name) as [r|];
    [destruct (_build_register_payload r v) as [words|ex] eqn:Hwords|];
    unfold_monad; rewrite ?Hwords; destruct w as [l p d]; simpl; run_cases;
    close_was_last.
Qed.

(** X5: a write that raises leaves the connection open.  In a run of
    [write_coil], [write_coils] or [write_register] that raises, a close is
    attempted only when the connection and the write went through, and then
    it is the close itself that failed; after a failed connection, a failed
    write or a missing base address no close is attempted. *)
Theorem failed_write_leaves_connection_open :
  forall (self : ModbusClient) (name : string) (w : World),
    (forall v, leaves_open_on_failure (write_coil self name v) (_client self) w)
    /\ (forall vs,
           leaves_open_on_failure (write_coils self name vs) (_client self) w)
    /\ (forall v,
           leaves_open_on_failure (write_register self name v)
             (_client self) w).
Proof.
  intros self name w. split; [|split].
  - intros v. apply write_coil_leaves_open.
  - intros vs. apply write_coils_leaves_open.
  - intros v. apply write_register_leaves_open.
Qed.

Lemma failed_write_leaves_connection_open_witness :
  exists pre f,
    [OpConnect; OpWriteCoil 10 true 1; OpClose] = pre ++ [OpClose]
    /\ Scenario.stuck_closing (modbus_log empty_world ++ pre) OpClose = Some f.
Proof.
  apply (proj1 (failed_write_leaves_connection_open Scenario.stuck_client
                  "pump_1" empty_world)
           true (mkExn ModbusClientError "connection reset")
           (after_publishing
              [PublishExn (mkExn ModbusException "connection reset")]
              (after_ops [OpConnect; OpWriteCoil 10 true 1; OpClose]
                 empty_world))).
  - reflexivity.
  - reflexivity.
  - simpl. right. right. left. reflexivity.
Defined.

(** ** [write_command]: the two writes in sequence *)

Lemma write_coil_log_grows :
  forall self name v w,
    exists ops, modbus_log (snd (write_coil self name v w)) = modbus_log w ++ ops.
Proof.
  intros self name v w. unfold write_coil.
  destruct (get_coil (configuration self) name) as [k|];
    unfold_monad; destruct w as [l p d]; simpl; run_cases;
    eexists; simpl; rewrite <- ?app_assoc; simpl;
    first [reflexivity | symmetry; apply app_nil_r].
Qed.

Lemma write_register_log_grows :
  forall self name v w,
    exists ops,
      modbus_log (snd (write_register self name v w)) = modbus_log w ++ ops.
Proof.
  intros self name v w. unfold write_register.
  destruct (get_holding_register (configuration self) name) as [r|];
    [destruct (_build_register_payload r v) as [words|ex] eqn:Hwords|];
    unfold_monad; rewrite ?Hwords; destruct w as [l p d]; simpl; run_cases;
    eexists; simpl; rewrite <- ?app_assoc; simpl;
    first [reflexivity | symmetry; apply app_nil_r].
Qed.

Lemma write_coil_writes_no_register :
  forall self name v w ops a words slave,
    modbus_log (snd (write_coil self name v w)) = modbus_log w ++ ops ->
    ~ In (OpWriteRegisters a words slave) ops.
Proof.
  intros self name v w ops a words slave. unfold write_coil.
  destruct (get_coil (configuration self) name) as [k|];
    unfold_monad; destruct w as [l p d]; simpl; run_cases;
    intros Hlog Hin; simpl in Hlog; rewrite <- ?app_assoc in Hlog;
    simpl in Hlog;
    first [ apply app_inv_head in Hlog
          | rewrite <- (app_nil_r l) in Hlog at 1;
            apply app_inv_head in Hlog ];
    subst ops; simpl in Hin; intuition discriminate.
Qed.

Lemma write_command_after_coil_failure :
  forall self name v w k ex w1,
    get_coil (configuration self) name = Some k ->
    write_coil self name (py_bool v) w = (Raised ex, w1) ->
    write_command self name v w = (Raised ex, w1).
Proof.
  intros self name v w k ex w1 Hk Hcoil.
  unfold write_command, write_command_sent, bind. rewrite Hk, Hcoil.
  reflexivity.
Qed.

(** X6: for a name configured as a coil, [write_command] writes registers
    only after the coil write went through.  Whatever the transport does, if
    a register write appears among the operations of the call, they begin
    with the connect, the coil write of [bool(value)] and the close: a coil
    write that raises, for whatever reason, ends the command before the
    register is touched. *)
Theorem register_write_follows_coil_write :
  forall (self : ModbusClient) (name : string) (v : PyValue) (w : World)
         (k : Coil) (ops : list TransportOp) (a' : Z) (words : list Z)
         (slave : Z),
    get_coil (configuration self) name = Some k ->
    modbus_log (snd (write_command self name v w)) = modbus_log w ++ ops ->
    In (OpWriteRegisters a' words slave) ops ->
    exists a rest,
      index0 (coil_address k) = Returned a
      /\ ops = [OpConnect; OpWriteCoil a (py_bool v) 1; OpClose] ++ rest.
Proof.
  intros self name v w k ops a' words slave Hk Hlog Hin.
  destruct (write_coil self name (py_bool v) w) as [[c|ex] w1] eqn:Hcoil.
  - destruct (write_coil_returned_log self name (py_bool v) w k c w1 Hk Hcoil)
      as (_ & a & Ha & Hw1).
    exists a.
    assert (Hfrom : exists rest,
               modbus_log (snd (write_command self name v w))
               = modbus_log w1 ++ rest).
    { unfold write_command, write_command_sent, bind, ret.
      rewrite Hk, Hcoil.
      destruct (write_register_log_grows self name v w1) as [ops2 H2].
      destruct (get_holding_register (configuration self) name) as [r|].
      - destruct (write_register self name v w1) as [[m|e] w2]; simpl in H2.
        + exists ops2. destruct (0 + c + m =? 0); simpl; exact H2.
        + exists ops2. exact H2.
      - exists []. rewrite app_nil_r.
        destruct (0 + c =? 0); reflexivity. }
    destruct Hfrom as [rest Hrest]. exists rest. split; [exact Ha|].
    rewrite Hlog, Hw1 in Hrest. simpl in Hrest.
    rewrite <- app_assoc in Hrest. apply app_inv_head in Hrest. exact Hrest.
  - rewrite (write_command_after_coil_failure self name v w k ex w1 Hk Hcoil)
      in Hlog. simpl in Hlog.
    exfalso.
    apply (write_coil_writes_no_register self name (py_bool v) w ops
             a' words slave); [|exact Hin].
    rewrite Hcoil. exact Hlog.
Qed.

Lemma register_write_follows_coil_write_witness :
  exists a rest,
    index0 (coil_address {| coil_name := "valve"; coil_address := [7] |})
    = Returned a
    /\ [OpConnect; OpWriteCoil 7 true 1; OpClose;
        OpConnect; OpWriteRegisters 20 [3] 1; OpClose]
       = [OpConnect; OpWriteCoil a (py_bool (VInt 3)) 1; OpClose] ++ rest.
Proof.
  apply (register_write_follows_coil_write Sample.client "valve" (VInt 3)
           empty_world {| coil_name := "valve"; coil_address := [7] |}
           [OpConnect; OpWriteCoil 7 true 1; OpClose;
            OpConnect; OpWriteRegisters 20 [3] 1; OpClose]
           20 [3] 1).
  - reflexivity.
  - reflexivity.
  - simpl. do 4 right. left. reflexivity.
Defined.

(** X7: for a name configured both as a coil and as a register, when the
    coil write succeeds and the register write then raises, [write_command]
    raises that exception and the coil write stays done: the transport log
    still holds the connect, coil write and close, followed by whatever the
    register write attempted. *)
Theorem write_command_keeps_coil_write :
  forall (self : ModbusClient) (name : string) (v : PyValue) (w : World)
         (k : Coil) (c : Z) (w1 : World) (ex : Exn) (w2 : World),
    get_coil (configuration self) name = Some k ->
    write_coil self name (py_bool v) w = (Returned c, w1) ->
    write_register self name v w1 = (Raised ex, w2) ->
    write_command self name v w = (Raised ex, w2)
    /\ exists a ops,
        index0 (coil_address k) = Returned a
        /\ modbus_log w2
           = modbus_log w
             ++ [OpConnect; OpWriteCoil a (py_bool v) 1; OpClose] ++ ops.
Proof.
  intros self name v w k c w1 ex w2 Hk Hcoil Hreg. split.
  - unfold write_command, write_command_sent, bind, ret.
    rewrite Hk, Hcoil.
    destruct (get_holding_register (configuration self) name) as [r|] eqn:Hr.
    + cbn beta iota. rewrite Hreg. reflexivity.
    + rewrite (write_register_unconfigured _ _ _ _ Hr) in Hreg.
      discriminate Hreg.
  - destruct (write_coil_returned_log self name (py_bool v) w k c w1 Hk Hcoil)
      as (_ & a & Ha & Hw1).
    destruct (write_register_log_grows self name v w1) as [ops Hops].
    rewrite Hreg in Hops. simpl in Hops.
    exists a, ops. split; [exact Ha|].
    rewrite Hops, Hw1. simpl. rewrite <- app_assoc. reflexivity.
Qed.

Lemma write_command_keeps_coil_write_witness :
  write_command Sample.client "valve" (VInt 40000) empty_world
  = (Raised (mkExn InvalidMessageError "value does not fit the declared width"),
     after_publishing
       [PublishExn
          (mkExn EncodingError "value does not fit the declared width")]
       (after_ops [OpConnect; OpWriteCoil 7 true 1; OpClose] empty_world)).
Proof.
  apply (proj1 (write_command_keeps_coil_write Sample.client "valve"
                  (VInt 40000) empty_world
                  {| coil_name := "valve"; coil_address := [7] |} 1
                  (after_ops [OpConnect; OpWriteCoil 7 true 1; OpClose]
                     empty_world)
                  (mkExn InvalidMessageError
                     "value does not fit the declared width")
                  (after_publishing
                     [PublishExn
                        (mkExn EncodingError
                           "value does not fit the declared width")]
                     (after_ops [OpConnect; OpWriteCoil 7 true 1; OpClose]
                        empty_world))
                  eq_refl eq_refl eq_refl)).
Defined.

(** X8: [write_command] routes by name.  For a name configured only as a
    coil, on a transport that carries out what it is asked, it writes
    [bool(value)] at the coil's base address, touches no register and returns
    [None]; for a name configured only as a register it writes the words of
    the payload builder at the register's base address and touches no coil. *)
Theorem write_command_routes_by_name :
  forall (self : ModbusClient) (name : string) (v : PyValue) (w : World),
    transport_reliable (_client self) ->
    (forall k a rest,
        get_coil (configuration self) name = Some k ->
        get_holding_register (configuration self) name = None ->
        coil_address k = a :: rest ->
        write_command self name v w
        = (Returned VNone,
           after_ops [OpConnect; OpWriteCoil a (py_bool v) 1; OpClose] w))
    /\
    (forall r a rest words,
        get_coil (configuration self) name = None ->
        get_holding_register (configuration self) name = Some r ->
        register_address r = a :: rest ->
        _build_register_payload r v = Returned words ->
        write_command self name v w
        = (Returned VNone,
           after_ops [OpConnect; OpWriteRegisters a words 1; OpClose] w)).
Proof.
  intros self name v w Hrel. split.
  - intros k a rest Hk Hr Ha.
    unfold write_command, write_command_sent, bind, ret. rewrite Hk, Hr.
    rewrite (write_coil_configured self name (py_bool v) w k a rest Hk Ha Hrel).
    reflexivity.
  - intros r a rest words Hk Hr Ha Hwords.
    unfold write_command, write_command_sent, bind, ret. rewrite Hk, Hr.
    rewrite (write_register_configured self name v w r a rest words
               Hr Ha Hwords Hrel).
    reflexivity.
Qed.

(** The string ["false"] is not empty, so it switches the coil on. *)
Lemma write_command_routes_by_name_witness :
  write_command Sample.client "pump_1" (VStr "false") empty_world
  = (Returned VNone,
     after_ops [OpConnect; OpWriteCoil 10 true 1; OpClose] empty_world)
  /\ write_command Sample.client "counter" (VInt 40000) empty_world
     = (Returned VNone,
        after_ops [OpConnect; OpWriteRegisters 30 [40000] 1; OpClose]
          empty_world).
Proof.
  split.
  - apply (proj1 (write_command_routes_by_name Sample.client "pump_1"
                    (VStr "false") empty_world
                    (fun history op => eq_refl))
             {| coil_name := "pump_1"; coil_address := [10] |} 10 []).
    + reflexivity.
    + reflexivity.
    + reflexivity.
  - apply (proj2 (write_command_routes_by_name Sample.client "counter"
                    (VInt 40000) empty_world
                    (fun history op => eq_refl))
             {| register_name := "counter"; register_address := [30];
                data_type := uint16; memory_order := Sample.big_natural |}
             30 [] [40000]).
    + reflexivity.
    + reflexivity.
    + reflexivity.
    + vm_compute. reflexivity.
Defined.

(** ** [write_to_modbus] *)

Lemma write_coil_keeps_dispatched :
  forall self name v w,
    dispatched (snd (write_coil self name v w)) = dispatched w.
Proof.
  intros self name v w. unfold write_coil.
  destruct (get_coil (configuration self) name) as [k|];
    unfold_monad; destruct w as [l p d]; simpl; run_cases; reflexivity.
Qed.

Lemma write_register_keeps_dispatched :
  forall self name v w,
    dispatched (snd (write_register self name v w)) = dispatched w.
Proof.
  intros self name v w. unfold write_register.
  destruct (get_holding_register (configuration self) name) as [r|];
    [destruct (_build_register_payload r v) as [words|ex] eqn:Hwords|];
    unfold_monad; rewrite ?Hwords; destruct w as [l p d]; simpl; run_cases;
    reflexivity.
Qed.

Lemma write_command_keeps_dispatched :
  forall self name v w,
    dispatched (snd (write_command self name v w)) = dispatched w.
Proof.
  intros self name v w.
  unfold write_command, write_command_sent, bind, ret.
  pose proof (write_coil_keeps_dispatched self name (py_bool v) w) as Hc.
  destruct (get_coil (configuration self) name) as [k|].
  - destruct (write_coil self name (py_bool v) w) as [[c|e] w1];
      simpl in Hc; [|exact Hc].
    pose proof (write_register_keeps_dispatched self name v w1) as Hg.
    destruct (get_holding_register (configuration self) name) as [r|].
    + destruct (write_register self name v w1) as [[m|e] w2]; simpl in Hg;
        [|simpl; congruence].
      destruct (0 + c + m =? 0); simpl; congruence.
    + destruct (0 + c =? 0); simpl; congruence.
  - pose proof (write_register_keeps_dispatched self name v w) as Hg.
    destruct (get_holding_register (configuration self) name) as [r|].
    + destruct (write_register self name v w) as [[m|e] w2]; simpl in Hg;
        [|simpl; congruence].
      destruct (0 + m =? 0); simpl; congruence.
    + reflexivity.
Qed.

(** A callback that writes with [write_command] inside a [try] that swallows
    every exception: it returns with the effects the write had. *)
Lemma swallowed_write_run :
  forall modbus_client name v w,
    try_except_Exception (write_command modbus_client name v ;;; ret tt)
      (fun _ => ret tt) w
    = (Returned tt, snd (write_command modbus_client name v w)).
Proof.
  intros modbus_client name v w.
  unfold try_except_Exception, bind, ret.
  destruct (write_command modbus_client name v w) as [[result|ex] w1];
    reflexivity.
Qed.

Lemma write_command_publishes_at_most_once :
  forall modbus_client name v w,
    exists events,
      published (snd (write_command modbus_client name v w))
      = published w ++ events
      /\ (List.length events <= 1)%nat.
Proof.
  intros modbus_client name v w.
  pose proof (write_command_publishes modbus_client name v w) as Hp.
  unfold publishes_what_it_raises in Hp.
  destruct (write_command modbus_client name v w) as [[result|ex] w1]; simpl.
  - exists []. rewrite app_nil_r. split; [exact Hp|simpl; lia].
  - destruct (is_reported (exn_class ex)).
    + destruct Hp as (e & Hp & _). exists [PublishExn e].
      split; [exact Hp|simpl; lia].
    + exists []. rewrite app_nil_r. split; [exact Hp|simpl; lia].
Qed.

Lemma write_to_modbus_run :
  forall (Msg : Type) (subscript : Subscript Msg) modbus_client
         (message : Msg) w,
    write_to_modbus subscript modbus_client message w
    = (Returned tt,
       match item_action subscript message with
       | Raised _ => w
       | Returned name =>
           match item_value subscript message with
           | Raised _ => w
           | Returned v => snd (write_command modbus_client name v w)
           end
       end).
Proof.
  intros Msg subscript modbus_client message w.
  unfold write_to_modbus.
  destruct (item_action subscript message) as [name|ex];
    [destruct (item_value subscript message) as [v|ex]|].
  - change (try_except_Exception
              (write_command modbus_client name v ;;; ret tt)
              (fun _ => ret tt) w
            = (Returned tt, snd (write_command modbus_client name v w))).
    apply swallowed_write_run.
  - reflexivity.
  - reflexivity.
Qed.

(** X9: the callback [write_to_modbus] of [main.py] never raises, whatever
    the object it is handed.  The two subscripts [message["action"]] and
    [message["value"]] are evaluated inside the [try], in that order: when
    either raises, the callback returns having done nothing, [write_command]
    not being called; when both return, it returns with the effects
    [write_command] had on what they returned, whatever [write_command] did
    (an unknown name, a rejected value, a failing transport).  In every case
    at most one event is published and the record of dispatched messages is
    left alone. *)
Theorem write_to_modbus_swallows_failures :
  forall (Msg : Type) (subscript : Subscript Msg)
         (modbus_client : ModbusClient) (message : Msg) (w : World),
    fst (write_to_modbus subscript modbus_client message w) = Returned tt
    /\ (forall ex,
           item_action subscript message = Raised ex ->
           write_to_modbus subscript modbus_client message w
           = (Returned tt, w))
    /\ (forall name ex,
           item_action subscript message = Returned name ->
           item_value subscript message = Raised ex ->
           write_to_modbus subscript modbus_client message w
           = (Returned tt, w))
    /\ (forall name v,
           item_action subscript message = Returned name ->
           item_value subscript message = Returned v ->
           write_to_modbus subscript modbus_client message w
           = (Returned tt, snd (write_command modbus_client name v w)))
    /\ dispatched (snd (write_to_modbus subscript modbus_client message w))
       = dispatched w
    /\ exists events,
        published (snd (write_to_modbus subscript modbus_client message w))
        = published w ++ events
        /\ (List.length events <= 1)%nat.
Proof.
  intros Msg subscript modbus_client message w.
  rewrite (write_to_modbus_run Msg subscript modbus_client message w).
  split; [reflexivity|].
  split; [intros ex Hname; rewrite Hname; reflexivity|].
  split; [intros name ex Hname Hv; rewrite Hname, Hv; reflexivity|].
  split; [intros name v Hname Hv; rewrite Hname, Hv; reflexivity|].
  simpl.
  destruct (item_action subscript message) as [name|ex];
    [destruct (item_value subscript message) as [v|ex]|].
  - split; [apply write_command_keeps_dispatched
           |apply write_command_publishes_at_most_once].
  - split; [reflexivity|]. exists []. rewrite app_nil_r.
    split; [reflexivity|simpl; lia].
  - split; [reflexivity|]. exists []. rewrite app_nil_r.
    split; [reflexivity|simpl; lia].
Qed.

(** [MqttClient] hands its callbacks the decoded text of the message, and a
    [str] has no item ["action"]: the callback of [main.py] returns without
    calling [write_command]. *)
Lemma write_to_modbus_swallows_failures_witness :
  write_to_modbus str_subscript Sample.client Sample.good_doc empty_world
  = (Returned tt, empty_world).
Proof.
  apply (proj1 (proj2 (write_to_modbus_swallows_failures string str_subscript
                         Sample.client Sample.good_doc empty_world))
           (mkExn TypeError "string indices must be integers")).
  reflexivity.
Defined.

(** * Further properties of [MqttReader] *)

(** ** Reading a message *)

Lemma on_message_parse_pure :
  forall self message w,
    snd (on_message_parse self message w) = w.
Proof.
  intros self message w. unfold on_message_parse, bind, lift.
  destruct (_decode_message message) as [msg_str|ex]; [|reflexivity].
  destruct (CommandMessageList_read (message_api self) msg_str)
    as [msg_list|ex]; [|reflexivity].
  reflexivity.
Qed.

(** X10: on a message whose topic could be read at line 69, every failure
    while the message is decoded, parsed and prepared is published exactly
    once, in the category of its class: [INVALID_MESSAGE]
    for an [InvalidMessageError], [UNKNOWN_COMMAND] for an
    [UnknownCommandError] and [UNHANDLED] for anything else, such as a
    payload that is not UTF-8 or an item without an ["action"] key.  The
    handler then returns; no callback runs and the transport is not
    touched. *)
Theorem read_failure_is_reported_once :
  forall (self : MqttReader) (message : MQTTMessage) (msg_topic : string)
         (w : World) (ex : Exn) (w1 : World),
    topic message = Returned msg_topic ->
    on_message_parse self message w = (Raised ex, w1) ->
    _on_message self message w
    = (Returned tt, after_publishing [report ex] w).
Proof.
  intros self message msg_topic w ex w1 Htopic Hparse.
  pose proof (on_message_parse_pure self message w) as Hpure.
  rewrite Hparse in Hpure. simpl in Hpure. subst w1.
  rewrite (on_message_topic_read self message msg_topic Htopic).
  unfold on_message_body, on_message_read.
  unfold try_except_Exception, try_except2, bind. rewrite Hparse.
  unfold report, publish, ret.
  destruct (isinstance ex InvalidMessageError);
    [|destruct (isinstance ex UnknownCommandError)]; destruct w; reflexivity.
Qed.

Lemma read_failure_is_reported_once_witness :
  _on_message Sample.reader
    {| _topic := list_byte_of_string "commands";
       payload := list_byte_of_string "not json" |}
    empty_world
  = (Returned tt,
     after_publishing
       [PublishCategory INVALID_MESSAGE "Message is invalid JSON"]
       empty_world).
Proof.
  apply (read_failure_is_reported_once Sample.reader
           {| _topic := list_byte_of_string "commands";
              payload := list_byte_of_string "not json" |}
           "commands" empty_world
           (mkExn InvalidMessageError "Message is invalid JSON") empty_world).
  - vm_compute. reflexivity.
  - vm_compute. reflexivity.
Defined.

(** ** Dispatching a batch *)

Lemma prepare_all_passes :
  forall self batch msg_obj_list,
    prepares_to self batch msg_obj_list ->
    forall acc, prepare_all self batch acc = Returned (acc ++ msg_obj_list).
Proof.
  intros self batch msg_obj_list Hall.
  induction Hall as [|d m batch msgs Hd _ IH]; intros acc; simpl.
  - rewrite app_nil_r. reflexivity.
  - rewrite Hd. simpl. rewrite IH. rewrite <- app_assoc. reflexivity.
Qed.

Lemma on_message_dispatches :
  forall self message msg_topic msg_str batch msg_obj_list w,
    topic message = Returned msg_topic ->
    _decode_message message = Returned msg_str ->
    CommandMessageList_read (message_api self) msg_str = Returned batch ->
    prepares_to self batch msg_obj_list ->
    _on_message self message w
    = try_except_Exception
        (dispatch_all (_on_message_callbacks self) msg_obj_list)
        (fun ex => publish (PublishCategory UNHANDLED (py_str ex))) w.
Proof.
  intros self message msg_topic msg_str batch msg_obj_list w
    Htopic Hdecode Hread Hall.
  rewrite (on_message_topic_read self message msg_topic Htopic).
  unfold on_message_body, on_message_read, on_message_parse.
  unfold try_except_Exception, try_except2, bind, lift, ret.
  rewrite Hdecode, Hread, (prepare_all_passes self batch msg_obj_list Hall).
  reflexivity.
Qed.

Lemma call_callbacks_well_behaved :
  forall callbacks,
    Forall well_behaved callbacks ->
    forall i msg_obj w,
      fst (call_callbacks i callbacks msg_obj w) = Returned tt
      /\ dispatched (snd (call_callbacks i callbacks msg_obj w))
         = dispatched w
           ++ invocations_from i (List.length callbacks) msg_obj.
Proof.
  intros callbacks Hall.
  induction Hall as [|callback rest Hcb _ IH]; intros i msg_obj w.
  - simpl. unfold invocations_from. simpl. rewrite app_nil_r.
    split; reflexivity.
  - cbn [call_callbacks]. unfold bind, record_dispatch.
    set (w0 := {| modbus_log := modbus_log w;
                  published := published w;
                  dispatched := dispatched w ++ [(i, msg_obj)] |}).
    destruct (Hcb msg_obj w0) as [Hret Hkeep].
    destruct (callback msg_obj w0) as [[u|ex] w1]; simpl in Hret, Hkeep;
      [|discriminate Hret].
    destruct (IH (S i) msg_obj w1) as [Hrest Hlog].
    split; [exact Hrest|].
    rewrite Hlog, Hkeep. subst w0. simpl.
    unfold invocations_from. simpl. rewrite <- app_assoc. reflexivity.
Qed.

Lemma dispatch_all_well_behaved :
  forall callbacks,
    Forall well_behaved callbacks ->
    forall msg_obj_list w,
      fst (dispatch_all callbacks msg_obj_list w) = Returned tt
      /\ dispatched (snd (dispatch_all callbacks msg_obj_list w))
         = dispatched w ++ invocations (List.length callbacks) msg_obj_list.
Proof.
  intros callbacks Hall msg_obj_list.
  induction msg_obj_list as [|msg_obj rest IH]; intros w.
  - simpl. unfold invocations. simpl. rewrite app_nil_r. split; reflexivity.
  - cbn [dispatch_all]. unfold bind.
    destruct (call_callbacks_well_behaved callbacks Hall 0%nat msg_obj w)
      as [Hret Hlog].
    destruct (call_callbacks 0 callbacks msg_obj w) as [[u|ex] w1];
      simpl in Hret, Hlog; [|discriminate Hret].
    destruct (IH w1) as [Hrest Hlog'].
    split; [exact Hrest|].
    rewrite Hlog', Hlog. unfold invocations. simpl.
    rewrite <- app_assoc. reflexivity.
Qed.

(** X11: when the topic of a message could be read at line 69, the message
    decodes, parses and every item of the batch prepares, and the callbacks
    return normally, every prepared command reaches every
    callback: the handler returns, and the invocations are, command by
    command in batch order, the callbacks in registration order. *)
Theorem valid_batch_reaches_every_callback :
  forall (self : MqttReader) (message : MQTTMessage)
         (msg_topic msg_str : string)
         (batch : list MsgDict) (msg_obj_list : list CommandMessage)
         (w : World),
    topic message = Returned msg_topic ->
    _decode_message message = Returned msg_str ->
    CommandMessageList_read (message_api self) msg_str = Returned batch ->
    prepares_to self batch msg_obj_list ->
    Forall well_behaved (_on_message_callbacks self) ->
    fst (_on_message self message w) = Returned tt
    /\ dispatched (snd (_on_message self message w))
       = dispatched w
         ++ invocations (List.length (_on_message_callbacks self))
              msg_obj_list.
Proof.
  intros self message msg_topic msg_str batch msg_obj_list w
    Htopic Hdecode Hread Hall Hcbs.
  rewrite (on_message_dispatches self message msg_topic msg_str batch
             msg_obj_list w Htopic Hdecode Hread Hall).
  unfold try_except_Exception.
  destruct (dispatch_all_well_behaved (_on_message_callbacks self) Hcbs
              msg_obj_list w) as [Hret Hlog].
  destruct (dispatch_all (_on_message_callbacks self) msg_obj_list w)
    as [[u|ex] w1]; simpl in Hret, Hlog; [|discriminate Hret].
  split; [exact Hret|exact Hlog].
Qed.

Lemma forward_well_behaved : well_behaved Sample.forward.
Proof.
  intros msg_obj w. unfold Sample.forward. rewrite swallowed_write_run.
  simpl. split; [reflexivity|apply write_command_keeps_dispatched].
Qed.

Lemma valid_batch_reaches_every_callback_witness :
  fst (_on_message Sample.good_reader Sample.good_message empty_world)
  = Returned tt
  /\ dispatched
       (snd (_on_message Sample.good_reader Sample.good_message empty_world))
     = dispatched empty_world
       ++ invocations
            (List.length (_on_message_callbacks Sample.good_reader))
            [Scenario.pump_on; Scenario.setpoint_one].
Proof.
  apply (valid_batch_reaches_every_callback Sample.good_reader
           Sample.good_message "commands" Sample.good_doc Sample.good_batch
           [Scenario.pump_on; Scenario.setpoint_one] empty_world).
  - vm_compute. reflexivity.
  - vm_compute. reflexivity.
  - vm_compute. reflexivity.
  - repeat constructor.
  - constructor; [apply forward_well_behaved|constructor].
Defined.

Lemma call_callbacks_app :
  forall pre post i msg_obj w,
    call_callbacks i (pre ++ post) msg_obj w
    = (call_callbacks i pre msg_obj ;;;
       call_callbacks (i + List.length pre) post msg_obj) w.
Proof.
  induction pre as [|callback pre IH]; intros post i msg_obj w.
  - simpl. unfold bind, ret. rewrite Nat.add_0_r. reflexivity.
  - cbn [call_callbacks app List.length]. unfold bind at 1 2 3 4 5.
    destruct (record_dispatch i msg_obj w) as [[u|ex] w0]; [|reflexivity].
    destruct (callback msg_obj w0) as [[u'|ex] w1]; [|reflexivity].
    rewrite IH. unfold bind. rewrite Nat.add_succ_r. reflexivity.
Qed.

(** X12: a callback that raises ends the dispatch of the batch.  When the
    topic of the message could be read at line 69, every item prepared, the
    callbacks before it returned normally and callback
    number [length pre] raises on the first command, no later callback is
    invoked on that command and no callback at all on the commands after it;
    the exception is published as [UNHANDLED] and the handler returns. *)
Theorem raising_callback_ends_dispatch :
  forall (self : MqttReader) (message : MQTTMessage)
         (msg_topic msg_str : string)
         (batch : list MsgDict) (msg_obj : CommandMessage)
         (others : list CommandMessage)
         (pre : list Callback) (callback : Callback) (post : list Callback)
         (w w1 w2 : World) (ex : Exn),
    topic message = Returned msg_topic ->
    _decode_message message = Returned msg_str ->
    CommandMessageList_read (message_api self) msg_str = Returned batch ->
    prepares_to self batch (msg_obj :: others) ->
    _on_message_callbacks self = pre ++ callback :: post ->
    call_callbacks 0 pre msg_obj w = (Returned tt, w1) ->
    callback msg_obj (snd (record_dispatch (List.length pre) msg_obj w1))
    = (Raised ex, w2) ->
    _on_message self message w
    = (Returned tt,
       after_publishing [PublishCategory UNHANDLED (py_str ex)] w2).
Proof.
  intros self message msg_topic msg_str batch msg_obj others pre callback
    post w w1 w2 ex Htopic Hdecode Hread Hall Hcbs Hpre Hraise.
  rewrite (on_message_dispatches self message msg_topic msg_str batch
             (msg_obj :: others) w Htopic Hdecode Hread Hall).
  rewrite Hcbs. unfold try_except_Exception. cbn [dispatch_all].
  unfold bind at 1. rewrite call_callbacks_app. unfold bind at 1.
  rewrite Hpre. cbn [call_callbacks]. unfold bind at 1 2.
  simpl in Hraise. unfold record_dispatch at 1. simpl.
  rewrite Hraise. destruct w2. reflexivity.
Qed.

Lemma raising_callback_ends_dispatch_witness :
  _on_message Scenario.guarded_reader Sample.good_message empty_world
  = (Returned tt,
     after_publishing [PublishCategory UNHANDLED "refused"]
       {| modbus_log := []; published := [];
          dispatched := [(0%nat, Scenario.pump_on)] |}).
Proof.
  apply (raising_callback_ends_dispatch Scenario.guarded_reader
           Sample.good_message "commands" Sample.good_doc Sample.good_batch
           Scenario.pump_on [Scenario.setpoint_one]
           [] Scenario.refuse [Sample.forward]
           empty_world empty_world
           {| modbus_log := []; published := [];
              dispatched := [(0%nat, Scenario.pump_on)] |}
           (mkExn OtherError "refused")).
  - vm_compute. reflexivity.
  - vm_compute. reflexivity.
  - vm_compute. reflexivity.
  - repeat constructor.
  - reflexivity.
  - reflexivity.
  - reflexivity.
Defined.

(** X13: callbacks run in the order they were registered.  After
    [add_message_callback(f)], a command is handed to the callbacks that were
    already registered, then, if none of them raised, to [f], which is
    recorded under the next free position. *)
Theorem added_callback_runs_last :
  forall (self : MqttReader) (f : Callback) (msg_obj : CommandMessage)
         (w : World),
    call_callbacks 0 (_on_message_callbacks (add_message_callback self f))
      msg_obj w
    = (call_callbacks 0 (_on_message_callbacks self) msg_obj ;;;
       record_dispatch (List.length (_on_message_callbacks self)) msg_obj ;;;
       f msg_obj ;;;
       ret tt) w.
Proof.
  intros self f msg_obj w. unfold add_message_callback. simpl.
  rewrite call_callbacks_app. reflexivity.
Qed.

(** * Properties of [main.py] *)

Lemma or_string_idempotent :
  forall given fallback,
    or_string given (or_string given fallback) = or_string given fallback.
Proof.
  intros [s|] fallback; simpl; [|reflexivity].
  destruct (String.eqb s EmptyString); reflexivity.
Qed.

Lemma or_int_idempotent :
  forall given fallback,
    or_int given (or_int given fallback) = or_int given fallback.
Proof.
  intros [n|] fallback; simpl; [|reflexivity].
  destruct (n =? 0); reflexivity.
Qed.

(** X14: when the configuration file loads, the overrides leave the coils and
    the holding registers of the file as they are; a port of 0 and an empty
    host or topic on the command line count as not given, so the value of
    the file stays; and applying the same command line to the result changes
    nothing more. *)
Theorem overrides_keep_targets :
  forall (E : Type) (from_file : string -> Result E AppConfiguration)
         (args : Args) (configuration : AppConfiguration),
    from_file (configuration_path args) = Done configuration ->
    exists overridden,
      get_configuration_with_overrides from_file args = Done overridden
      /\ targets overridden = targets configuration
      /\ (mqtt_port args = Some 0 ->
          MqttSettings.port (get_mqtt_settings overridden)
          = MqttSettings.port (get_mqtt_settings configuration))
      /\ (modbus_port args = Some 0 ->
          ModbusSettings.port (get_modbus_settings overridden)
          = ModbusSettings.port (get_modbus_settings configuration))
      /\ (mqtt_host args = Some EmptyString ->
          MqttSettings.host (get_mqtt_settings overridden)
          = MqttSettings.host (get_mqtt_settings configuration))
      /\ (modbus_host args = Some EmptyString ->
          ModbusSettings.host (get_modbus_settings overridden)
          = ModbusSettings.host (get_modbus_settings configuration))
      /\ (mqtt_topic args = Some EmptyString ->
          MqttSettings.command_topic (get_mqtt_settings overridden)
          = MqttSettings.command_topic (get_mqtt_settings configuration))
      /\ get_configuration_with_overrides
           (fun _ : string => @Done E AppConfiguration overridden) args
         = Done overridden.
Proof.
  intros E from_file args configuration Hload.
  unfold get_configuration_with_overrides. rewrite Hload.
  eexists. split; [reflexivity|]. simpl.
  split; [destruct (targets configuration); reflexivity|].
  split; [intros ->; reflexivity|].
  split; [intros ->; reflexivity|].
  split; [intros ->; reflexivity|].
  split; [intros ->; reflexivity|].
  split; [intros ->; reflexivity|].
  rewrite !or_string_idempotent, !or_int_idempotent. reflexivity.
Qed.

Lemma overrides_keep_targets_witness :
  exists overridden,
    get_configuration_with_overrides Deployment.load Deployment.command_line
    = Done overridden
    /\ targets overridden = targets Deployment.file_configuration
    /\ (mqtt_port Deployment.command_line = Some 0 ->
        MqttSettings.port (get_mqtt_settings overridden)
        = MqttSettings.port (get_mqtt_settings Deployment.file_configuration))
    /\ (modbus_port Deployment.command_line = Some 0 ->
        ModbusSettings.port (get_modbus_settings overridden)
        = ModbusSettings.port
            (get_modbus_settings Deployment.file_configuration))
    /\ (mqtt_host Deployment.command_line = Some EmptyString ->
        MqttSettings.host (get_mqtt_settings overridden)
        = MqttSettings.host (get_mqtt_settings Deployment.file_configuration))
    /\ (modbus_host Deployment.command_line = Some EmptyString ->
        ModbusSettings.host (get_modbus_settings overridden)
        = ModbusSettings.host
            (get_modbus_settings Deployment.file_configuration))
    /\ (mqtt_topic Deployment.command_line = Some EmptyString ->
        MqttSettings.command_topic (get_mqtt_settings overridden)
        = MqttSettings.command_topic
            (get_mqtt_settings Deployment.file_configuration))
    /\ get_configuration_with_overrides
         (fun _ : string => @Done string AppConfiguration overridden)
         Deployment.command_line
       = Done overridden.
Proof.
  apply (overrides_keep_targets string Deployment.load Deployment.command_line
           Deployment.file_configuration).
  reflexivity.
Defined.

(** * Properties of [MqttWriter] *)

Ltac unfold_run :=
  unfold run_bind, run_ret, run_raise, run_lift, try_except_OSError,
    client_call, assign, logging, print, record_invocation, after_calls in *.

Ltac same_net :=
  simpl; repeat rewrite <- app_assoc; simpl; try rewrite app_nil_r;
  reflexivity.

(** X15: on a client that carries out what it is asked, [publish(topic,
    payload)] connects to the broker at the writer's host and port and then
    publishes the serialized payload on [topic] with quality of service 1:
    every publication opens its own connection. *)
Theorem publish_connects_then_publishes :
  forall (P : Type) (write : P -> Result MqttError string) (show : P -> string)
         (self : MqttWriter.t) (topic : string) (payload : P) (text : string)
         (n : Net),
    write payload = Done text ->
    broker_reliable (MqttWriter._client self) ->
    MqttWriter.publish write show self topic payload n
    = (Done tt,
       after_calls
         [MqttConnect (MqttWriter.host self) (MqttWriter.port self);
          MqttPublish topic text 1] n).
Proof.
  intros P write show self topic payload text n Hwrite Hrel.
  unfold MqttWriter.publish, MqttWriter.connect. unfold_run.
  rewrite !Hrel. rewrite Hwrite. simpl. rewrite Hrel.
  destruct n. same_net.
Qed.

Lemma publish_connects_then_publishes_witness :
  MqttWriter.publish Deployment.write_text Deployment.show_text
    Deployment.writer "errors" "unknown command" empty_net
  = (Done tt,
     after_calls
       [MqttConnect "broker.local" 1883;
        MqttPublish "errors" "unknown command" 1] empty_net).
Proof.
  apply (publish_connects_then_publishes string Deployment.write_text
           Deployment.show_text Deployment.writer "errors" "unknown command"
           "unknown command" empty_net).
  - reflexivity.
  - intros history op. reflexivity.
Defined.

(** X16: when the connection fails with an [OSError], [publish] raises an
    [OSError] whose message is ["Cannot assign requested address: "] followed
    by the writer's [host:port], with the original error as its cause;
    nothing is published and nothing is logged. *)
Theorem publish_reports_connection_failure :
  forall (P : Type) (write : P -> Result MqttError string) (show : P -> string)
         (self : MqttWriter.t) (topic : string) (payload : P) (n : Net)
         (msg : string) (cause : option string),
    MqttWriter._client self (client_log n)
      (MqttConnect (MqttWriter.host self) (MqttWriter.port self))
    = Some (OSError msg cause) ->
    MqttWriter.publish write show self topic payload n
    = (Failed
         (OSError
            ("Cannot assign requested address: "
             ++ endpoint (MqttWriter.host self) (MqttWriter.port self))%string
            (Some msg)),
       after_calls
         [MqttConnect (MqttWriter.host self) (MqttWriter.port self)] n).
Proof.
  intros P write show self topic payload n msg cause Hfail.
  unfold MqttWriter.publish, MqttWriter.connect. unfold_run.
  rewrite Hfail. destruct n. reflexivity.
Qed.

Lemma publish_reports_connection_failure_witness :
  MqttWriter.publish Deployment.write_text Deployment.show_text
    Deployment.cut_off_writer "errors" "unknown command" empty_net
  = (Failed
       (OSError "Cannot assign requested address: broker.local:1883"
          (Some "Connection refused")),
     after_calls [MqttConnect "broker.local" 1883] empty_net).
Proof.
  apply (publish_reports_connection_failure string Deployment.write_text
           Deployment.show_text Deployment.cut_off_writer "errors"
           "unknown command" empty_net "Connection refused" None).
  reflexivity.
Defined.

(** X17: [publish] never takes its last line: whatever the client and the
    serializer do, nothing is logged, so ["Failed to publish"] never appears;
    and a run that returns has connected and handed the serialized payload to
    the client. *)
Theorem publish_returns_only_after_publishing :
  forall (P : Type) (write : P -> Result MqttError string) (show : P -> string)
         (self : MqttWriter.t) (topic : string) (payload : P) (n : Net),
    logged (snd (MqttWriter.publish write show self topic payload n))
    = logged n
    /\ (forall n',
           MqttWriter.publish write show self topic payload n = (Done tt, n') ->
           exists text,
             write payload = Done text
             /\ n' = after_calls
                       [MqttConnect (MqttWriter.host self)
                          (MqttWriter.port self);
                        MqttPublish topic text 1] n).
Proof.
  intros P write show self topic payload n.
  unfold MqttWriter.publish, MqttWriter.connect. unfold_run.
  destruct n as [cl asg lg pr inv]. simpl.
  destruct (MqttWriter._client self cl
              (MqttConnect (MqttWriter.host self) (MqttWriter.port self)))
    as [[msg cause|ex]|]; simpl.
  - split; [reflexivity|]. intros n' H. discriminate H.
  - split; [reflexivity|]. intros n' H. discriminate H.
  - destruct (write payload) as [text|e]; simpl.
    + destruct (MqttWriter._client self
                  (cl ++ [MqttConnect (MqttWriter.host self)
                            (MqttWriter.port self)])
                  (MqttPublish topic text 1)) as [e|]; simpl.
      * split; [reflexivity|]. intros n' H. discriminate H.
      * split; [reflexivity|]. intros n' H. injection H as <-.
        exists text. split; [reflexivity|]. same_net.
    + split; [reflexivity|]. intros n' H. discriminate H.
Qed.

Lemma publish_returns_only_after_publishing_witness :
  exists text,
    Deployment.write_text "unknown command" = Done text
    /\ after_calls
         [MqttConnect "broker.local" 1883;
          MqttPublish "errors" "unknown command" 1] empty_net
       = after_calls
           [MqttConnect (MqttWriter.host Deployment.writer)
              (MqttWriter.port Deployment.writer);
            MqttPublish "errors" text 1] empty_net.
Proof.
  apply (proj2 (publish_returns_only_after_publishing string
                  Deployment.write_text Deployment.show_text
                  Deployment.writer "errors" "unknown command" empty_net)).
  reflexivity.
Defined.

(** * Properties of the connection of [MqttReader] *)

Ltac unfold_net :=
  unfold_run; unfold after_assigning, after_logging, after_printing in *.

(** X18: [run] assigns the three callbacks and then connects.  When the
    connection fails with an [OSError] it raises an [OSError] whose message
    is ["Cannot connect to MQTT broker at "] followed by [host:port], with
    the original error as its cause: it logs nothing and never enters the
    network loop.  On a client that carries out what it is asked it logs
    ["Service started"] and enters the loop. *)
Theorem reader_run_connects_before_looping :
  forall (self : ReaderConnection.t) (n : Net),
    (forall msg cause,
        ReaderConnection._client self (client_log n)
          (MqttConnect (ReaderConnection._host self)
             (ReaderConnection._port self))
        = Some (OSError msg cause) ->
        ReaderConnection.run self n
        = (Failed
             (OSError
                ("Cannot connect to MQTT broker at "
                 ++ endpoint (ReaderConnection._host self)
                      (ReaderConnection._port self))%string
                (Some msg)),
           after_calls
             [MqttConnect (ReaderConnection._host self)
                (ReaderConnection._port self)]
             (after_assigning [on_connect; on_disconnect; on_message] n)))
    /\
    (broker_reliable (ReaderConnection._client self) ->
     ReaderConnection.run self n
     = (Done tt,
        after_calls
          [MqttConnect (ReaderConnection._host self)
             (ReaderConnection._port self);
           MqttLoopForever]
          (after_logging [(INFO, "Service started")]
             (after_assigning [on_connect; on_disconnect; on_message] n)))).
Proof.
  intros self n. split.
  - intros msg cause Hfail.
    unfold ReaderConnection.run, ReaderConnection.connect. unfold_net.
    simpl. rewrite Hfail. destruct n. same_net.
  - intros Hrel.
    unfold ReaderConnection.run, ReaderConnection.connect. unfold_net.
    simpl. repeat (rewrite Hrel; simpl). destruct n. same_net.
Qed.

Lemma reader_run_connects_before_looping_witness :
  ReaderConnection.run Deployment.cut_off_reader empty_net
  = (Failed
       (OSError "Cannot connect to MQTT broker at broker.local:1883"
          (Some "Connection refused")),
     after_calls [MqttConnect "broker.local" 1883]
       (after_assigning [on_connect; on_disconnect; on_message] empty_net))
  /\ ReaderConnection.run Deployment.connected_reader empty_net
     = (Done tt,
        after_calls [MqttConnect "broker.local" 1883; MqttLoopForever]
          (after_logging [(INFO, "Service started")]
             (after_assigning [on_connect; on_disconnect; on_message]
                empty_net))).
Proof.
  split.
  - apply (proj1 (reader_run_connects_before_looping
                    Deployment.cut_off_reader empty_net)
             "Connection refused" None).
    reflexivity.
  - apply (proj2 (reader_run_connects_before_looping
                    Deployment.connected_reader empty_net)).
    intros history op. reflexivity.
Defined.

(** X19: a reader built from a configuration subscribes, when the broker
    accepts the connection (reason code 0), to exactly one topic, the command
    topic of that configuration; for any other reason code it subscribes to
    nothing and logs one error line. *)
Theorem reader_subscribes_to_command_topic :
  forall (configuration : AppConfiguration) (api : MessageApi)
         (client handed : Broker) (reason_code : Z) (n : Net),
    let self := ReaderConnection.init configuration api client in
    let topic := MqttSettings.command_topic (get_mqtt_settings configuration) in
    (reason_code = 0 ->
     broker_reliable handed ->
     ReaderConnection._on_connect self handed reason_code n
     = (Done tt,
        after_calls [MqttSubscribe topic]
          (after_logging
             [(INFO, "Connected to MQTT broker");
              (INFO, ("Subscribing to topic: " ++ topic)%string)] n)))
    /\
    (reason_code <> 0 ->
     fst (ReaderConnection._on_connect self handed reason_code n) = Done tt
     /\ client_log (snd (ReaderConnection._on_connect self handed
                           reason_code n))
        = client_log n
     /\ exists line,
         logged (snd (ReaderConnection._on_connect self handed reason_code n))
         = logged n ++ [(ERROR, line)]).
Proof.
  intros configuration api client handed reason_code n self topic. split.
  - intros -> Hrel. unfold ReaderConnection._on_connect. simpl.
    unfold_net. simpl. rewrite Hrel. destruct n. same_net.
  - intros Hcode. unfold ReaderConnection._on_connect.
    apply Z.eqb_neq in Hcode. rewrite Hcode. unfold_net. simpl.
    split; [reflexivity|]. split; [reflexivity|].
    eexists. reflexivity.
Qed.

Lemma reader_subscribes_to_command_topic_witness :
  ReaderConnection._on_connect Deployment.connected_reader
    Deployment.accepting 0 empty_net
  = (Done tt,
     after_calls [MqttSubscribe "commands"]
       (after_logging
          [(INFO, "Connected to MQTT broker");
           (INFO, "Subscribing to topic: commands")] empty_net)).
Proof.
  apply (proj1 (reader_subscribes_to_command_topic
                  Deployment.file_configuration
                  (Message.api Sample.doc Sample.batch)
                  Deployment.accepting Deployment.accepting 0 empty_net)).
  - reflexivity.
  - intros history op. reflexivity.
Defined.

(** * Properties of [MqttClient] *)

Lemma topics_subscribe_topics :
  forall new_topics self,
    MqttClient.topics (MqttClient.subscribe_topics self new_topics)
    = MqttClient.topics self ++ new_topics.
Proof.
  unfold MqttClient.subscribe_topics.
  induction new_topics as [|topic rest IH]; intros self; simpl.
  - rewrite app_nil_r. reflexivity.
  - rewrite IH. simpl. rewrite <- app_assoc. reflexivity.
Qed.

Lemma subscribe_all_reliable :
  forall handed,
    broker_reliable handed ->
    forall ts n,
      MqttClient.subscribe_all handed ts n
      = (Done tt, after_calls (map MqttSubscribe ts) n).
Proof.
  intros handed Hrel. induction ts as [|topic rest IH]; intros n.
  - simpl. unfold_net. destruct n. same_net.
  - cbn [MqttClient.subscribe_all map]. unfold run_bind, client_call.
    rewrite Hrel. rewrite IH. unfold after_calls. simpl.
    rewrite <- app_assoc. reflexivity.
Qed.

(** X20: the topics given to [subscribe_topics] accumulate over its calls,
    in order and with repetitions kept, and the connection callback
    subscribes to every one of them in that order when the result code is 0,
    on a client that carries out what it is asked; for any other result code
    it subscribes to nothing and prints ["Connection failed"]. *)
Theorem client_subscribes_to_registered_topics :
  forall (self : MqttClient.t) (first second : list string)
         (handed : Broker) (rc : Z) (n : Net),
    let registered :=
      MqttClient.subscribe_topics (MqttClient.subscribe_topics self first)
        second in
    MqttClient.topics registered = MqttClient.topics self ++ first ++ second
    /\ (rc = 0 ->
        broker_reliable handed ->
        MqttClient._on_connect registered handed rc n
        = (Done tt,
           after_calls
             (map MqttSubscribe (MqttClient.topics self ++ first ++ second))
             (after_printing ["Connected to MQTT broker"] n)))
    /\ (rc <> 0 ->
        MqttClient._on_connect registered handed rc n
        = (Done tt, after_printing ["Connection failed"] n)).
Proof.
  intros self first second handed rc n registered.
  assert (Htopics : MqttClient.topics registered
                    = MqttClient.topics self ++ first ++ second).
  { subst registered. rewrite !topics_subscribe_topics.
    rewrite <- app_assoc. reflexivity. }
  split; [exact Htopics|]. split.
  - intros -> Hrel. unfold MqttClient._on_connect. simpl.
    unfold run_bind, print. rewrite Htopics.
    rewrite (subscribe_all_reliable handed Hrel). reflexivity.
  - intros Hrc. unfold MqttClient._on_connect.
    apply Z.eqb_neq in Hrc. rewrite Hrc. reflexivity.
Qed.

Lemma client_subscribes_to_registered_topics_witness :
  MqttClient._on_connect
    (MqttClient.subscribe_topics
       (MqttClient.subscribe_topics Deployment.client ["foo"; "baa"])
       ["foo"])
    Deployment.accepting 0 empty_net
  = (Done tt,
     after_calls
       (map MqttSubscribe
          (MqttClient.topics Deployment.client ++ ["foo"; "baa"] ++ ["foo"]))
       (after_printing ["Connected to MQTT broker"] empty_net)).
Proof.
  apply (proj1 (proj2 (client_subscribes_to_registered_topics
                         Deployment.client ["foo"; "baa"] ["foo"]
                         Deployment.accepting 0 empty_net))).
  - reflexivity.
  - intros history op. reflexivity.
Defined.

(** ** Messages *)

Lemma call_all_well_behaved :
  forall callbacks,
    Forall net_well_behaved callbacks ->
    forall i msg n,
      fst (MqttClient.call_all i callbacks msg n) = Done tt
      /\ invoked (snd (MqttClient.call_all i callbacks msg n))
         = invoked n
           ++ map (fun j => (j, msg)) (seq i (List.length callbacks)).
Proof.
  intros callbacks Hall.
  induction Hall as [|callback rest Hcb _ IH]; intros i msg n.
  - simpl. rewrite app_nil_r. split; reflexivity.
  - cbn [MqttClient.call_all]. unfold run_bind, record_invocation.
    set (n0 := {| client_log := client_log n; assigned := assigned n;
                  logged := logged n; printed := printed n;
                  invoked := invoked n ++ [(i, msg)] |}).
    destruct (Hcb msg n0) as [Hret Hkeep].
    destruct (callback msg n0) as [[u|e] n1]; simpl in Hret, Hkeep;
      [|discriminate Hret].
    destruct (IH (S i) msg n1) as [Hrest Hlog].
    split; [exact Hrest|].
    rewrite Hlog, Hkeep. subst n0. simpl.
    rewrite <- app_assoc. reflexivity.
Qed.

Lemma call_all_app :
  forall pre post i msg n,
    MqttClient.call_all i (pre ++ post) msg n
    = (MqttClient.call_all i pre msg ;;~
       MqttClient.call_all (i + List.length pre) post msg) n.
Proof.
  induction pre as [|callback pre IH]; intros post i msg n.
  - simpl. unfold run_bind, run_ret. rewrite Nat.add_0_r. reflexivity.
  - cbn [MqttClient.call_all app List.length]. unfold run_bind at 1 2 3 4 5.
    destruct (record_invocation i msg n) as [[u|e] n0]; [|reflexivity].
    destruct (callback msg n0) as [[u'|e] n1]; [|reflexivity].
    rewrite IH. unfold run_bind. rewrite Nat.add_succ_r. reflexivity.
Qed.

(** X21: when the payload decodes and the callbacks return normally, the
    message handler of [MqttClient] hands the decoded text to every callback,
    in registration order, and returns. *)
Theorem client_message_reaches_every_callback :
  forall (self : MqttClient.t) (message : MQTTMessage) (msg : string)
         (n : Net),
    _decode_message message = Returned msg ->
    Forall net_well_behaved (MqttClient.on_message_callbacks self) ->
    fst (MqttClient._on_message self message n) = Done tt
    /\ invoked (snd (MqttClient._on_message self message n))
       = invoked n
         ++ map (fun j => (j, msg))
              (seq 0 (List.length (MqttClient.on_message_callbacks self))).
Proof.
  intros self message msg n Hdecode Hcbs.
  unfold MqttClient._on_message, decode_message, run_bind, run_lift.
  rewrite Hdecode.
  apply (call_all_well_behaved (MqttClient.on_message_callbacks self) Hcbs).
Qed.

(** X22: the message handler of [MqttClient] contains no failure.  When the
    payload does not decode, the decoding error leaves the handler and no
    callback is invoked; when a callback raises, after the callbacks before
    it returned, its exception leaves the handler and the callbacks after it
    are not invoked. *)
Theorem client_message_failures_escape :
  forall (self : MqttClient.t) (message : MQTTMessage) (n : Net),
    (forall ex,
        _decode_message message = Raised ex ->
        MqttClient._on_message self message n = (Failed (NotOSError ex), n))
    /\
    (forall msg pre callback post n1 e n2,
        _decode_message message = Returned msg ->
        MqttClient.on_message_callbacks self = pre ++ callback :: post ->
        MqttClient.call_all 0 pre msg n = (Done tt, n1) ->
        callback msg (snd (record_invocation (List.length pre) msg n1))
        = (Failed e, n2) ->
        MqttClient._on_message self message n = (Failed e, n2)).
Proof.
  intros self message n. split.
  - intros ex Hdecode.
    unfold MqttClient._on_message, decode_message, run_bind, run_lift.
    rewrite Hdecode. reflexivity.
  - intros msg pre callback post n1 e n2 Hdecode Hcbs Hpre Hraise.
    unfold MqttClient._on_message, decode_message, run_bind at 1, run_lift.
    rewrite Hdecode, Hcbs, call_all_app. unfold run_bind at 1.
    rewrite Hpre. cbn [MqttClient.call_all]. unfold run_bind at 1 2.
    simpl in Hraise. unfold record_invocation at 1. simpl.
    rewrite Hraise. reflexivity.
Qed.

(** X23: [MqttClient.run] assigns its two callbacks, connects and enters the
    network loop.  When the connection fails, the error of the client leaves
    [run] as it is, whatever its class, and the loop is never entered. *)
Theorem client_run_connects_before_looping :
  forall (self : MqttClient.t) (n : Net),
    (forall e,
        MqttClient.client self (client_log n)
          (MqttConnect (MqttClient.host self) (MqttClient.port self))
        = Some e ->
        MqttClient.run self n
        = (Failed e,
           after_calls
             [MqttConnect (MqttClient.host self) (MqttClient.port self)]
             (after_assigning [on_connect; on_message] n)))
    /\
    (broker_reliable (MqttClient.client self) ->
     MqttClient.run self n
     = (Done tt,
        after_calls
          [MqttConnect (MqttClient.host self) (MqttClient.port self);
           MqttLoopForever]
          (after_assigning [on_connect; on_message] n))).
Proof.
  intros self n. split.
  - intros e Hfail. unfold MqttClient.run. unfold_net. simpl.
    rewrite Hfail. destruct n. same_net.
  - intros Hrel. unfold MqttClient.run. unfold_net. simpl.
    repeat (rewrite Hrel; simpl). destruct n. same_net.
Qed.

Lemma client_message_reaches_every_callback_witness :
  fst (MqttClient._on_message Deployment.listening_client Deployment.hello
         empty_net)
  = Done tt
  /\ invoked
       (snd (MqttClient._on_message Deployment.listening_client
               Deployment.hello empty_net))
     = invoked empty_net
       ++ map (fun j => (j, "hello"))
            (seq 0
               (List.length
                  (MqttClient.on_message_callbacks
                     Deployment.listening_client))).
Proof.
  apply (client_message_reaches_every_callback Deployment.listening_client
           Deployment.hello "hello" empty_net).
  - vm_compute. reflexivity.
  - repeat constructor.
Defined.

Lemma client_message_failures_escape_witness :
  MqttClient._on_message Deployment.listening_client Deployment.garbled
    empty_net
  = (Failed (NotOSError (mkExn UnicodeDecodeError "invalid utf-8")),
     empty_net)
  /\ MqttClient._on_message Deployment.choking_client Deployment.hello
       empty_net
     = (Failed (NotOSError (mkExn OtherError "bad message")),
        {| client_log := []; assigned := []; logged := []; printed := [];
           invoked := [(0%nat, "hello")] |}).
Proof.
  split.
  - apply (proj1 (client_message_failures_escape Deployment.listening_client
                    Deployment.garbled empty_net)).
    vm_compute. reflexivity.
  - apply (proj2 (client_message_failures_escape Deployment.choking_client
                    Deployment.hello empty_net)
             "hello" [] Deployment.choke [Deployment.note] empty_net).
    + vm_compute. reflexivity.
    + reflexivity.
    + reflexivity.
    + reflexivity.
Defined.

Lemma client_run_connects_before_looping_witness :
  MqttClient.run Deployment.cut_off_client empty_net
  = (Failed (OSError "Connection refused" None),
     after_calls [MqttConnect "broker.local" 1883]
       (after_assigning [on_connect; on_message] empty_net))
  /\ MqttClient.run Deployment.client empty_net
     = (Done tt,
        after_calls [MqttConnect "broker.local" 1883; MqttLoopForever]
          (after_assigning [on_connect; on_message] empty_net)).
Proof.
  split.
  - apply (proj1 (client_run_connects_before_looping
                    Deployment.cut_off_client empty_net)).
    reflexivity.
  - apply (proj2 (client_run_connects_before_looping Deployment.client
                    empty_net)).
    intros history op. reflexivity.
Defined.

